(** * ngx_http_no_newlines_module: a shallow embedding of the filter

    The module strips CR and LF bytes from HTML response bodies, in place,
    buffer by buffer.  The embedding follows
    [src/ngx_http_no_newlines_module.c] function by function.

    - A [u_char] is a [Z]; the code only copies and compares bytes.
    - A [u_char *] is an offset into one flat memory [list Z].  A read or a
      write outside that memory has no defined behaviour in C; here it yields
      [None].
    - [ctx->state] is threaded explicitly together with the memory.
    - The helpers receive [reader] and [writer] by value: what they do
      to their own copies of the cursors is not seen by the caller, what they
      write through them is. *)

From Stdlib Require Import ZArith Lia String Ascii.
From stdpp Require Import base option list.

(** ** Bytes *)

Abbreviation u_char := Z (only parsing).

Definition CR : u_char := 13%Z.      (* '\r' *)
Definition LF : u_char := 10%Z.      (* '\n' *)
Definition LT : u_char := 60%Z.      (* '<'  *)
Definition SLASH : u_char := 47%Z.   (* '/'  *)
Definition NUL : u_char := 0%Z.

Definition byte_of_ascii (a : ascii) : u_char := Z.of_N (N_of_ascii a).

Fixpoint bytes (s : string) : list u_char :=
  match s with
  | EmptyString => []
  | String a s' => byte_of_ascii a :: bytes s'
  end.

(** A C string literal: its characters and the terminating NUL. *)
Definition c_literal (s : string) : list u_char := bytes s ++ [NUL].

(** ** Memory *)

Abbreviation memory := (list Z) (only parsing).

(** [*p] *)
Definition load (m : memory) (p : nat) : option u_char := m !! p.

(** [*p = v] *)
Definition store (m : memory) (p : nat) (v : u_char) : option memory :=
  _ ← m !! p; Some (<[p := v]> m).

(** The bytes of the buffer [[pos, last)]. *)
Definition buf_bytes (m : memory) (pos last : nat) : list u_char :=
  take (last - pos) (drop pos m).

(** ** The size of a pointer

    Both length arguments in the source are written [sizeof ("..." - 1)]:
    the operand is the pointer ["..." - 1], so the value is the size of a
    [u_char *] on the platform. *)

Inductive data_model := ILP32 | LP64.

Definition sizeof_pointer (dm : data_model) : nat :=
  match dm with
  | ILP32 => 4
  | LP64 => 8
  end.

(** ** The host's string comparison *)

(** [(c >= 'A' && c <= 'Z') ? (c | 0x20) : c] *)
Definition ngx_tolower (c : Z) : Z :=
  if ((65 <=? c) && (c <=? 90))%Z then Z.lor c 32 else c.

(** Modelled from the spec: [ngx_strncasecmp] belongs to the host server, not
    to this module; it is the case-insensitive comparison the spec speaks of,
    over at most [n] bytes and ending at a NUL common to both strings, as the
    C function of that name does.  [s1] is an offset into the memory, [s2]
    the bytes of the literal it is compared with.  The result is zero exactly
    when the strings agree. *)
Fixpoint ngx_strncasecmp (m : memory) (s1 : nat) (s2 : list u_char) (n : nat)
  : option Z :=
  match n with
  | O => Some 0%Z
  | S n' =>
      c1 ← load m s1;
      c2 ← head s2;
      let c1 := ngx_tolower c1 in
      let c2 := ngx_tolower c2 in
      if (c1 =? c2)%Z then
        if (c1 =? 0)%Z then Some 0%Z
        else ngx_strncasecmp m (S s1) (tail s2) n'
      else Some (c1 - c2)%Z
  end.

(** ** The filter state *)

Inductive ngx_http_no_newlines_state_e :=
| state_text
| state_abort
| state_tag_pre.

Section Filter.

Variable dm : data_model.

(** ** Byte classifier *)

Definition is_tag_pre (m : memory) (reader : nat) : option Z :=
  r ← ngx_strncasecmp m reader (c_literal "pre") (sizeof_pointer dm);
  if (r =? 0)%Z then Some 1%Z else Some 0%Z.

(** ** Tag dispatcher *)

(** [for (i = 0; i < 3; i++) *writer++ = *reader++;] *)
Fixpoint copy_bytes (i : nat) (m : memory) (reader writer : nat)
  : option memory :=
  match i with
  | O => Some m
  | S i' =>
      c ← load m reader;
      m ← store m writer c;
      copy_bytes i' m (S reader) (S writer)
  end.

Definition ngx_http_no_newlines_handle_tags
    (m : memory) (reader writer : nat) (st : ngx_http_no_newlines_state_e)
  : option (memory * ngx_http_no_newlines_state_e) :=
  c ← load m reader;
  m ← store m writer c;
  let writer := S writer in
  let reader := S reader in
  let t := reader in
  b ← is_tag_pre m t;
  if (b =? 0)%Z then Some (m, st)
  else
    m ← copy_bytes 3 m reader writer;
    Some (m, state_tag_pre).

(** ** Preformatted-region scanner *)

(** [while ( *reader != '/' ) { *writer++ = *reader++; }]
    The loop has no bound of its own.  The reader moves forward at every
    turn, so [fuel] larger than the memory is never used up: the scan ends
    at a slash or leaves the memory first ([copy_to_slash_fuel]). *)
Fixpoint copy_to_slash (fuel : nat) (m : memory) (reader writer : nat)
  : option (memory * nat * nat) :=
  match fuel with
  | O => None
  | S fuel' =>
      c ← load m reader;
      if (c =? SLASH)%Z then Some (m, reader, writer)
      else
        m ← store m writer c;
        copy_to_slash fuel' m (S reader) (S writer)
  end.

(** [do { ...; *writer++ = *reader++; t = reader; } while (is_tag_pre (t) != 1);] *)
Fixpoint scan_to_close (fuel : nat) (m : memory) (reader writer : nat)
  : option (memory * nat * nat) :=
  match fuel with
  | O => None
  | S fuel' =>
      '(m, reader, writer) ← copy_to_slash (S (length m)) m reader writer;
      c ← load m reader;
      m ← store m writer c;
      let writer := S writer in
      let reader := S reader in
      let t := reader in
      b ← is_tag_pre m t;
      if (b =? 1)%Z then Some (m, reader, writer)
      else scan_to_close fuel' m reader writer
  end.

Definition ngx_http_no_newlines_ignore_preformatted_text
    (m : memory) (reader writer : nat) (st : ngx_http_no_newlines_state_e)
  : option (memory * ngx_http_no_newlines_state_e) :=
  '(m, reader, writer) ← scan_to_close (S (length m)) m reader writer;
  m ← copy_bytes 3 m reader writer;
  Some (m, state_text).

(** ** Buffer stripper *)

Record scan := Scan {
  scan_mem : memory;
  scan_state : ngx_http_no_newlines_state_e;
  scan_reader : nat;
  scan_writer : nat
}.

(** [*writer++ = *reader;] and the loop's [reader++]. *)
Definition write_through (m : memory) (st : ngx_http_no_newlines_state_e)
    (reader writer : nat) : option scan :=
  c ← load m reader;
  m ← store m writer c;
  Some (Scan m st (S reader) (S writer)).

(** One turn of the [for] loop of [ngx_http_no_newlines_strip_buffer]. *)
Definition strip_step (s : scan) : option scan :=
  let '(Scan m st reader writer) := s in
  match st with
  | state_text =>
      c ← load m reader;
      if ((c =? CR) || (c =? LF))%Z then
        Some (Scan m st (S reader) writer)             (* continue *)
      else if (c =? LT)%Z then
        '(m, st) ← ngx_http_no_newlines_handle_tags m reader writer st;
        write_through m st reader writer
      else
        write_through m st reader writer
  | state_tag_pre =>
      '(m, st) ← ngx_http_no_newlines_ignore_preformatted_text m reader writer st;
      write_through m st reader writer
  | state_abort =>
      write_through m st reader writer
  end.

(** [n] turns of the loop. *)
Fixpoint strip_iter (n : nat) (s : scan) : option scan :=
  match n with
  | O => Some s
  | S n' => s' ← strip_step s; strip_iter n' s'
  end.

Record ngx_buf_t := Buf { pos : nat; last : nat }.

(** The reader starts at [pos] and moves by one at every turn, also on
    [continue]: the loop makes [last - pos] turns, none when
    [last <= pos].  Then [buffer->last = writer]. *)
Definition ngx_http_no_newlines_strip_buffer
    (m : memory) (buffer : ngx_buf_t) (st : ngx_http_no_newlines_state_e)
  : option (memory * ngx_buf_t * ngx_http_no_newlines_state_e) :=
  s ← strip_iter (last buffer - pos buffer)
                 (Scan m st (pos buffer) (pos buffer));
  Some (scan_mem s, Buf (pos buffer) (scan_writer s), scan_state s).

(** ** The request *)

Record ngx_http_no_newlines_ctx_t := Ctx {
  state : ngx_http_no_newlines_state_e
}.

(** [len] bytes at [data]; [data] lists what can be read from that address
    on, which may be more than [len] bytes. *)
Record ngx_str_t := Str { len : nat; data : list u_char }.

Record ngx_table_elt_t := TableElt {
  hash : Z;
  key : ngx_str_t;
  value : ngx_str_t
}.

Record ngx_http_headers_out_t := HeadersOut {
  status : Z;
  content_type : ngx_str_t;
  content_encoding : option ngx_table_elt_t;
  content_length : option ngx_table_elt_t;
  content_length_n : Z;
  accept_ranges : option ngx_table_elt_t
}.

Record ngx_http_request_t := Request {
  headers_out : ngx_http_headers_out_t;
  header_only : bool;
  allow_ranges : bool;
  main_filter_need_in_memory : bool;
  pool_has_room : bool;
  ctx : option ngx_http_no_newlines_ctx_t
}.

Definition NGX_HTTP_OK : Z := 200.
Definition NGX_HTTP_FORBIDDEN : Z := 403.
Definition NGX_HTTP_NOT_FOUND : Z := 404.
Definition NGX_ERROR : Z := (-1)%Z.

(** Modelled from the spec: the host's [ngx_pcalloc] returns zero-filled
    memory, a context in state [state_text], or NULL when the allocation
    fails. *)
Definition ngx_pcalloc (r : ngx_http_request_t)
  : option ngx_http_no_newlines_ctx_t :=
  if pool_has_room r then Some (Ctx state_text) else None.

Definition ngx_http_set_ctx (r : ngx_http_request_t)
    (c : ngx_http_no_newlines_ctx_t) : ngx_http_request_t :=
  Request (headers_out r) (header_only r) (allow_ranges r)
          (main_filter_need_in_memory r) (pool_has_room r) (Some c).

(** Modelled from the spec: the host's macro clears the declared
    content-length header; the length is from then on unknown. *)
Definition ngx_http_clear_content_length (r : ngx_http_request_t)
  : ngx_http_request_t :=
  let h := headers_out r in
  Request (HeadersOut (status h) (content_type h) (content_encoding h)
                      None (-1)%Z (accept_ranges h))
          (header_only r) (allow_ranges r)
          (main_filter_need_in_memory r) (pool_has_room r) (ctx r).

(** Modelled from the spec: the host's macro clears the accept-ranges
    header and forbids ranges. *)
Definition ngx_http_clear_accept_ranges (r : ngx_http_request_t)
  : ngx_http_request_t :=
  let h := headers_out r in
  Request (HeadersOut (status h) (content_type h) (content_encoding h)
                      (content_length h) (content_length_n h) None)
          (header_only r) false
          (main_filter_need_in_memory r) (pool_has_room r) (ctx r).

Definition set_main_filter_need_in_memory (r : ngx_http_request_t)
  : ngx_http_request_t :=
  Request (headers_out r) (header_only r) (allow_ranges r)
          true (pool_has_room r) (ctx r).

Definition ngx_chain_t := list ngx_buf_t.

(** ** Header filter *)

Variable ngx_http_next_header_filter : ngx_http_request_t -> Z.

Definition ngx_http_no_newlines_header_filter (r : ngx_http_request_t)
  : option Z :=
  let h := headers_out r in
  if (negb (status h =? NGX_HTTP_OK)%Z &&
      negb (status h =? NGX_HTTP_FORBIDDEN)%Z &&
      negb (status h =? NGX_HTTP_NOT_FOUND)%Z)
     || header_only r
     || (len (content_type h) =? 0)%nat
     || match content_encoding h with
        | Some e => negb (len (value e) =? 0)%nat
        | None => false
        end
  then Some (ngx_http_next_header_filter r)
  else
    rc ← ngx_strncasecmp (data (content_type h)) 0 (c_literal "text/html")
                         (sizeof_pointer dm);
    if negb (rc =? 0)%Z then Some (ngx_http_next_header_filter r)
    else
      match ngx_pcalloc r with
      | None => Some NGX_ERROR
      | Some c =>
          let r := ngx_http_set_ctx r c in
          let r := ngx_http_clear_content_length r in
          let r := ngx_http_clear_accept_ranges r in
          let r := set_main_filter_need_in_memory r in
          Some (ngx_http_next_header_filter r)
      end.

(** ** Body filter *)

Variable ngx_http_next_body_filter :
  ngx_http_request_t -> memory -> ngx_chain_t -> Z.

(** [for (chain_link = in; chain_link; chain_link = chain_link->next)] *)
Fixpoint strip_chain (m : memory) (st : ngx_http_no_newlines_state_e)
    (chain : ngx_chain_t)
  : option (memory * ngx_chain_t * ngx_http_no_newlines_state_e) :=
  match chain with
  | [] => Some (m, [], st)
  | buf :: next =>
      '(m, buf, st) ← ngx_http_no_newlines_strip_buffer m buf st;
      '(m, next, st) ← strip_chain m st next;
      Some (m, buf :: next, st)
  end.

Definition ngx_http_no_newlines_body_filter
    (r : ngx_http_request_t) (m : memory) (chain : ngx_chain_t) : option Z :=
  match ctx r with
  | None => Some (ngx_http_next_body_filter r m chain)
  | Some c =>
      let c := Ctx state_text in
      '(m, chain, st) ← strip_chain m (state c) chain;
      Some (ngx_http_next_body_filter (ngx_http_set_ctx r (Ctx st)) m chain)
  end.

End Filter.

(** ** What the spec asks of the output *)

(** The input without its CR and LF bytes. *)
Fixpoint remove_newlines (l : list u_char) : list u_char :=
  match l with
  | [] => []
  | c :: l' =>
      if ((c =? CR) || (c =? LF))%Z then remove_newlines l'
      else c :: remove_newlines l'
  end.

(** The first [n] bytes at [s1] and of [s2] agree, in either case, up to a
    NUL common to both. *)
Fixpoint agree_nocase (m : memory) (s1 : nat) (s2 : list u_char) (n : nat)
  : Prop :=
  match n with
  | O => True
  | S n' =>
      exists c1 c2,
        m !! s1 = Some c1 /\ head s2 = Some c2 /\
        ngx_tolower c1 = ngx_tolower c2 /\
        (ngx_tolower c1 = 0%Z \/ agree_nocase m (S s1) (tail s2) n')
  end.

(** The three bytes at [p] spell pre, in either case. *)
Definition spells_pre (m : memory) (p : nat) : Prop :=
  exists b0 b1 b2,
    m !! p = Some b0 /\ m !! S p = Some b1 /\ m !! S (S p) = Some b2 /\
    ngx_tolower b0 = 112%Z /\ ngx_tolower b1 = 114%Z /\ ngx_tolower b2 = 101%Z.

(** What holds after [k] turns of a scan of [[p, p + k)] that has stayed in
    [state_text]: the writer is at or behind the reader, the memory from the
    writer on is the input [m0], and the bytes written are the input read so
    far without its newlines. *)
Definition text_inv (m0 : memory) (p k : nat) (s : scan) : Prop :=
  scan_state s = state_text /\
  scan_reader s = p + k /\
  p <= scan_writer s <= p + k /\
  length (scan_mem s) = length m0 /\
  (forall i, scan_writer s <= i -> scan_mem s !! i = m0 !! i) /\
  buf_bytes (scan_mem s) p (scan_writer s)
    = remove_newlines (buf_bytes m0 p (p + k)).

(** The number of CR and LF bytes. *)
Fixpoint count_newlines (l : list u_char) : nat :=
  match l with
  | [] => 0
  | c :: l' =>
      if ((c =? CR) || (c =? LF))%Z then S (count_newlines l')
      else count_newlines l'
  end.

(** A buffer inside the memory that holds no CR, no LF and no opening angle
    which the classifier [tag] takes for a tag. *)
Definition clean_buffer (tag : list Z -> nat -> option Z) (m : memory)
    (b : ngx_buf_t) : Prop :=
  pos b <= last b <= length m /\
  forall i c, pos b <= i < last b -> m !! i = Some c ->
    c <> CR /\ c <> LF /\ (c = LT -> tag m (S i) = Some 0%Z).

(** The responses the first test of the header filter does not send on as
    they are: status 200, 403 or 404, a body, a content type, and no content
    encoding of positive length. *)
Definition past_gate (r : ngx_http_request_t) : Prop :=
  (status (headers_out r) = NGX_HTTP_OK \/
   status (headers_out r) = NGX_HTTP_FORBIDDEN \/
   status (headers_out r) = NGX_HTTP_NOT_FOUND) /\
  header_only r = false /\
  len (content_type (headers_out r)) <> 0 /\
  (forall e, content_encoding (headers_out r) = Some e -> len (value e) = 0).

(** ** Inputs of the scenarios *)

Definition crlf : list u_char := [CR; LF].

(** a CR LF b *)
Definition text_with_newline : list u_char := bytes "a" ++ crlf ++ bytes "b".

(** <pre> CR LF foo CR LF </pre> *)
Definition pre_region : list u_char :=
  bytes "<pre>" ++ crlf ++ bytes "foo" ++ crlf ++ bytes "</pre>".

(** <pre followed by a NUL byte, then abc: eight bytes, and nothing
    addressable behind them. *)
Definition pre_nul_open : list u_char := bytes "<pre" ++ [NUL] ++ bytes "abc".

(** a LF and an opening angle, the three bytes of a buffer, with pre and a
    NUL byte behind the end of the buffer. *)
Definition angle_before_pre : list u_char :=
  bytes "a" ++ [LF] ++ bytes "<pre" ++ [NUL].

Definition html_headers (content_type : string) : ngx_http_headers_out_t :=
  HeadersOut NGX_HTTP_OK
             (Str (String.length content_type) (c_literal content_type))
             None None 1024%Z None.

Definition html_request (content_type : string) : ngx_http_request_t :=
  Request (html_headers content_type) false true false true None.

(** * Properties *)

(** ** Memory *)

Lemma store_Some (m : memory) (p : nat) (v : u_char) :
  p < length m -> store m p v = Some (<[p := v]> m).
Proof.
  intros Hp. unfold store.
  destruct (lookup_lt_is_Some_2 m p Hp) as [x ->]. reflexivity.
Qed.

Lemma store_inv (m m' : memory) (p : nat) (v : u_char) :
  store m p v = Some m' -> p < length m /\ m' = <[p := v]> m.
Proof.
  unfold store. destruct (m !! p) as [x|] eqn:E; simpl; [|discriminate].
  intros [= <-]. split; [|reflexivity]. eapply lookup_lt_Some; eassumption.
Qed.

Lemma store_length (m m' : memory) (p : nat) (v : u_char) :
  store m p v = Some m' -> length m' = length m.
Proof. intros H. apply store_inv in H as [_ ->]. apply length_insert. Qed.

Lemma load_lt (m : memory) (p : nat) (c : u_char) :
  load m p = Some c -> p < length m.
Proof. unfold load. apply lookup_lt_Some. Qed.

(** ** The comparison reads its first argument forwards only *)

Lemma ngx_strncasecmp_ext (n : nat) :
  forall (m m' : memory) (s1 : nat) (s2 : list u_char),
    (forall i, s1 <= i -> m !! i = m' !! i) ->
    ngx_strncasecmp m s1 s2 n = ngx_strncasecmp m' s1 s2 n.
Proof.
  induction n as [|n IH]; intros m m' s1 s2 Hagree; simpl; [reflexivity|].
  unfold load. rewrite <- (Hagree s1) by lia.
  destruct (m !! s1) as [c1|]; simpl; [|reflexivity].
  destruct (head s2) as [c2|]; simpl; [|reflexivity].
  destruct (_ =? _)%Z; [|reflexivity].
  destruct (_ =? _)%Z; [reflexivity|].
  apply IH. intros i Hi. apply Hagree. lia.
Qed.

Lemma is_tag_pre_ext (dm : data_model) (m m' : memory) (p : nat) :
  (forall i, p <= i -> m !! i = m' !! i) ->
  is_tag_pre dm m p = is_tag_pre dm m' p.
Proof.
  intros H. unfold is_tag_pre. rewrite (ngx_strncasecmp_ext _ m m' p _ H).
  reflexivity.
Qed.

(** ** What the comparison and the classifier accept *)

Lemma ngx_tolower_0 (c : Z) : ngx_tolower c = 0%Z -> c = 0%Z.
Proof.
  unfold ngx_tolower.
  destruct ((65 <=? c) && (c <=? 90))%Z eqn:E; [|auto].
  intros H. exfalso.
  assert (Hb : Z.testbit (Z.lor c 32) 5 = true).
  { rewrite Z.lor_spec. apply orb_true_iff. right. reflexivity. }
  rewrite H in Hb. vm_compute in Hb. discriminate.
Qed.

Lemma ngx_strncasecmp_0 (n : nat) :
  forall (m : memory) (s1 : nat) (s2 : list u_char),
    ngx_strncasecmp m s1 s2 n = Some 0%Z <-> agree_nocase m s1 s2 n.
Proof.
  induction n as [|n IH]; intros m s1 s2; simpl; [tauto|].
  unfold load.
  destruct (m !! s1) as [c1|]; simpl;
    [|split; [discriminate | intros (? & ? & [=] & _)]].
  destruct (head s2) as [c2|]; simpl;
    [|split; [discriminate | intros (? & ? & _ & [=] & _)]].
  destruct (Z.eqb_spec (ngx_tolower c1) (ngx_tolower c2)) as [Heq|Hne].
  - destruct (Z.eqb_spec (ngx_tolower c1) 0) as [Hz|Hnz].
    + split; [|reflexivity]. intros _. exists c1, c2. auto.
    + rewrite IH. split.
      * intros H. exists c1, c2. auto.
      * intros (? & ? & [= <-] & [= <-] & _ & [Hz|H]); [contradiction|exact H].
  - split.
    + intros [= H]. lia.
    + intros (? & ? & [= <-] & [= <-] & Heq & _). contradiction.
Qed.

Lemma is_tag_pre_1 (dm : data_model) (m : memory) (p : nat) :
  is_tag_pre dm m p = Some 1%Z <->
  agree_nocase m p (c_literal "pre") (sizeof_pointer dm).
Proof.
  rewrite <- ngx_strncasecmp_0. unfold is_tag_pre.
  destruct (ngx_strncasecmp _ _ _ _) as [r|]; simpl; [|split; discriminate].
  destruct (Z.eqb_spec r 0) as [->|Hr]; [tauto|].
  split; [discriminate|]. intros [= ->]. contradiction.
Qed.

Ltac agree_step H b E T :=
  let c := fresh "c" in
  let Hc := fresh "Hc" in
  destruct H as (b & c & E & Hc & T & H);
  vm_compute in Hc; injection Hc as <-;
  match type of T with
  | _ = ?rhs => let v := eval vm_compute in rhs in change rhs with v in T
  end.

(** The comparison runs over [sizeof_pointer dm] bytes, at least four: after
    the three letters it meets the literal's NUL, and the fourth byte of the
    input has to be a NUL too. *)
Lemma is_tag_pre_accepts (dm : data_model) (m : memory) (p : nat) :
  is_tag_pre dm m p = Some 1%Z <->
  spells_pre m p /\ m !! S (S (S p)) = Some NUL.
Proof.
  rewrite is_tag_pre_1. unfold spells_pre. split.
  - intros H.
    assert (H4 : agree_nocase m p (c_literal "pre") 4).
    { destruct dm; [exact H|].
      cbn [agree_nocase sizeof_pointer] in H. cbn [agree_nocase].
      destruct H as (b0 & c0 & E0 & Hc0 & T0 & [Z0|H]);
        exists b0, c0; repeat split; auto; right.
      destruct H as (b1 & c1 & E1 & Hc1 & T1 & [Z1|H]);
        exists b1, c1; repeat split; auto; right.
      destruct H as (b2 & c2 & E2 & Hc2 & T2 & [Z2|H]);
        exists b2, c2; repeat split; auto; right.
      destruct H as (b3 & c3 & E3 & Hc3 & T3 & _).
      exists b3, c3; repeat split; auto. }
    clear H. cbn [agree_nocase] in H4.
    agree_step H4 b0 E0 T0.
    destruct H4 as [Z0|H4]; [rewrite Z0 in T0; discriminate|].
    agree_step H4 b1 E1 T1.
    destruct H4 as [Z1|H4]; [rewrite Z1 in T1; discriminate|].
    agree_step H4 b2 E2 T2.
    destruct H4 as [Z2|H4]; [rewrite Z2 in T2; discriminate|].
    agree_step H4 b3 E3 T3.
    apply ngx_tolower_0 in T3. subst b3.
    split; [exists b0, b1, b2; auto 10 | exact E3].
  - intros [(b0 & b1 & b2 & E0 & E1 & E2 & T0 & T1 & T2) E3].
    assert (H3 : agree_nocase m (S (S (S p))) [NUL]
                              (S (sizeof_pointer dm - 4))).
    { cbn [agree_nocase]. exists NUL, NUL. auto. }
    assert (Hn : sizeof_pointer dm = 3 + S (sizeof_pointer dm - 4))
      by (destruct dm; reflexivity).
    rewrite Hn. generalize dependent (S (sizeof_pointer dm - 4)).
    intros k H3 _. cbn [agree_nocase Nat.add].
    exists b0, 112%Z; repeat split; [exact E0 | exact T0 | right].
    exists b1, 114%Z; repeat split; [exact E1 | exact T1 | right].
    exists b2, 101%Z; repeat split; [exact E2 | exact T2 | right].
    exact H3.
Qed.

(** ** The cursors of the buffer scan *)

Lemma write_through_inv (m : memory) (st : ngx_http_no_newlines_state_e)
    (reader writer : nat) (s' : scan) :
  write_through m st reader writer = Some s' ->
  exists c, m !! reader = Some c /\ writer < length m /\
    s' = Scan (<[writer := c]> m) st (S reader) (S writer).
Proof.
  unfold write_through, load.
  destruct (m !! reader) as [c|]; simpl; [|discriminate].
  destruct (store m writer c) as [m'|] eqn:E; simpl; [|discriminate].
  apply store_inv in E as [Hw ->]. intros [= <-]. eauto.
Qed.

(** A turn moves the reader by one and the writer by one or not at all. *)
Lemma strip_step_cursors (dm : data_model) (s s' : scan) :
  strip_step dm s = Some s' ->
  scan_reader s' = S (scan_reader s) /\
  (scan_writer s' = scan_writer s \/ scan_writer s' = S (scan_writer s)).
Proof.
  destruct s as [m st r w]. unfold strip_step. simpl.
  assert (Hwt : forall m1 st1, write_through m1 st1 r w = Some s' ->
            scan_reader s' = S r /\
            (scan_writer s' = w \/ scan_writer s' = S w)).
  { intros m1 st1 H. apply write_through_inv in H as (c & _ & _ & ->).
    simpl. auto. }
  destruct st.
  - destruct (load m r) as [c|]; simpl; [|discriminate].
    destruct ((c =? CR) || (c =? LF))%Z.
    { intros [= <-]. simpl. auto. }
    destruct (c =? LT)%Z; [|apply Hwt].
    destruct (ngx_http_no_newlines_handle_tags dm m r w state_text)
      as [[m1 st1]|]; simpl; [apply Hwt|discriminate].
  - apply Hwt.
  - destruct (ngx_http_no_newlines_ignore_preformatted_text dm m r w
                state_tag_pre) as [[m1 st1]|]; simpl; [apply Hwt|discriminate].
Qed.

Lemma strip_iter_cursors (dm : data_model) (n : nat) :
  forall s s' : scan,
    strip_iter dm n s = Some s' ->
    scan_reader s' = scan_reader s + n /\
    scan_writer s <= scan_writer s' <= scan_writer s + n.
Proof.
  induction n as [|n IH]; intros s s'; simpl.
  - intros [= <-]. lia.
  - destruct (strip_step dm s) as [s1|] eqn:E; simpl; [|discriminate].
    intros H. apply IH in H. apply strip_step_cursors in E. lia.
Qed.

(** C8: at every turn of the scan of a buffer the write cursor is at or
    behind the read cursor, whatever the bytes and the starting state, and
    the length of the buffer after the scan is at most the length before. *)
Theorem write_cursor_behind_read_cursor (dm : data_model) (m : memory)
    (buffer : ngx_buf_t) (st : ngx_http_no_newlines_state_e) :
  (forall (k : nat) (s : scan),
      strip_iter dm k (Scan m st (pos buffer) (pos buffer)) = Some s ->
      scan_writer s <= scan_reader s) /\
  (forall (m' : memory) (buffer' : ngx_buf_t)
          (st' : ngx_http_no_newlines_state_e),
      ngx_http_no_newlines_strip_buffer dm m buffer st
        = Some (m', buffer', st') ->
      pos buffer' = pos buffer /\
      last buffer' - pos buffer' <= last buffer - pos buffer).
Proof.
  split.
  - intros k s H. apply strip_iter_cursors in H. simpl in H. lia.
  - intros m' buffer' st'. unfold ngx_http_no_newlines_strip_buffer.
    destruct (strip_iter _ _ _) as [s|] eqn:E; simpl; [|discriminate].
    intros [= <- <- <-]. simpl.
    apply strip_iter_cursors in E. simpl in E. lia.
Qed.

Lemma write_cursor_behind_read_cursor_witness :
  scan_writer (Scan (bytes "ab" ++ [LF] ++ bytes "b") state_text 4 2)
    <= scan_reader (Scan (bytes "ab" ++ [LF] ++ bytes "b") state_text 4 2) /\
  (pos (Buf 0 2) = pos (Buf 0 4) /\
   last (Buf 0 2) - pos (Buf 0 2) <= last (Buf 0 4) - pos (Buf 0 4)).
Proof.
  destruct (write_cursor_behind_read_cursor LP64 text_with_newline (Buf 0 4)
              state_text) as [Hturn Hlen].
  split.
  - apply (Hturn 4). reflexivity.
  - apply (Hlen (bytes "ab" ++ [LF] ++ bytes "b") (Buf 0 2) state_text).
    reflexivity.
Defined.

(** ** A scan that stays in the text state *)

Lemma remove_newlines_app (l l' : list u_char) :
  remove_newlines (l ++ l') = remove_newlines l ++ remove_newlines l'.
Proof.
  induction l as [|c l IH]; simpl; [reflexivity|].
  destruct ((c =? CR) || (c =? LF))%Z; simpl; congruence.
Qed.

Lemma remove_newlines_filter (l : list u_char) :
  remove_newlines l = filter (fun c => c <> CR /\ c <> LF) l.
Proof.
  induction l as [|c l IH]; simpl; [reflexivity|].
  rewrite filter_cons, <- IH.
  destruct (decide (c <> CR /\ c <> LF)) as [[H1 H2]|Hn].
  - apply Z.eqb_neq in H1, H2. rewrite H1, H2. reflexivity.
  - destruct (Z.eqb_spec c CR) as [?|H1]; [reflexivity|].
    destruct (Z.eqb_spec c LF) as [?|H2]; [reflexivity|]. tauto.
Qed.

Lemma buf_bytes_snoc (m : memory) (p w : nat) (c : u_char) :
  p <= w -> m !! w = Some c ->
  buf_bytes m p (S w) = buf_bytes m p w ++ [c].
Proof.
  intros Hpw Hc. unfold buf_bytes.
  replace (S w - p) with (S (w - p)) by lia.
  apply take_S_r. rewrite lookup_drop.
  replace (p + (w - p)) with w by lia. exact Hc.
Qed.

Lemma buf_bytes_insert_ge (m : memory) (p w i : nat) (c : u_char) :
  p <= w -> w <= i ->
  buf_bytes (<[i := c]> m) p w = buf_bytes m p w.
Proof.
  intros Hpw Hwi. unfold buf_bytes.
  rewrite drop_insert_ge by lia. apply take_insert_ge. lia.
Qed.

Ltac scan_simpl :=
  cbn [scan_state scan_reader scan_writer scan_mem] in *.

Lemma buf_bytes_empty (m : memory) (p : nat) : buf_bytes m p p = [].
Proof. unfold buf_bytes. rewrite Nat.sub_diag. reflexivity. Qed.

Section TextRun.

Variable dm : data_model.
Variable m0 : list Z.
Variables p l : nat.
Hypothesis Hrange : p <= l <= length m0.
Hypothesis Hnotag :
  forall i, p <= i < l -> m0 !! i = Some LT ->
            is_tag_pre dm m0 (S i) = Some 0%Z.

(** The turn on a newline: nothing is written. *)
Lemma text_inv_skip (k : nat) (m : memory) (w : nat) (c : u_char) :
  text_inv m0 p k (Scan m state_text (p + k) w) ->
  m0 !! (p + k) = Some c ->
  ((c =? CR) || (c =? LF))%Z = true ->
  text_inv m0 p (S k) (Scan m state_text (S (p + k)) w).
Proof.
  unfold text_inv. intros (_ & _ & Hw & Hlen & Hag & Hout) Hc Hnl. scan_simpl.
  repeat split; try lia; try assumption.
  replace (p + S k) with (S (p + k)) by lia.
  rewrite (buf_bytes_snoc m0 p (p + k) c) by (assumption || lia).
  rewrite remove_newlines_app. simpl. rewrite Hnl, app_nil_r. exact Hout.
Qed.

(** The turn on any other byte: it is written at the writer. *)
Lemma text_inv_keep (k : nat) (m : memory) (w : nat) (c : u_char) :
  text_inv m0 p k (Scan m state_text (p + k) w) ->
  m0 !! (p + k) = Some c ->
  ((c =? CR) || (c =? LF))%Z = false ->
  text_inv m0 p (S k) (Scan (<[w := c]> m) state_text (S (p + k)) (S w)).
Proof.
  unfold text_inv. intros (_ & _ & Hw & Hlen & Hag & Hout) Hc Hnl. scan_simpl.
  assert (Hlt : p + k < length m0) by (eapply lookup_lt_Some; eassumption).
  repeat split; try lia.
  - rewrite length_insert. exact Hlen.
  - intros i Hi. rewrite list_lookup_insert_ne by lia. apply Hag. lia.
  - rewrite (buf_bytes_snoc _ p w c); [|lia|].
    + rewrite buf_bytes_insert_ge by lia. rewrite Hout.
      replace (p + S k) with (S (p + k)) by lia.
      rewrite (buf_bytes_snoc m0 p (p + k) c) by (assumption || lia).
      rewrite remove_newlines_app. simpl. rewrite Hnl. reflexivity.
    + apply list_lookup_insert_eq. lia.
Qed.

Lemma text_step (k : nat) (s : scan) :
  k < l - p -> text_inv m0 p k s ->
  exists s', strip_step dm s = Some s' /\ text_inv m0 p (S k) s'.
Proof.
  intros Hk Hinv. destruct s as [m st r w].
  pose proof Hinv as (Hst & Hr & Hw & Hlen & Hag & Hout). scan_simpl.
  subst st r.
  destruct (lookup_lt_is_Some_2 m0 (p + k)) as [c Hc]; [lia|].
  assert (Hmc : m !! (p + k) = Some c) by (rewrite Hag by lia; exact Hc).
  assert (Hwt : forall m1,
            m1 !! (p + k) = Some c -> <[w := c]> m1 = <[w := c]> m ->
            length m1 = length m0 ->
            write_through m1 state_text (p + k) w
              = Some (Scan (<[w := c]> m) state_text (S (p + k)) (S w))).
  { intros m1 H1 H2 H3. unfold write_through, load. rewrite H1. simpl.
    rewrite store_Some by lia. simpl. rewrite H2. reflexivity. }
  unfold strip_step, load. rewrite Hmc. simpl.
  destruct ((c =? CR) || (c =? LF))%Z eqn:Hnl.
  { eexists. split; [reflexivity|]. eapply text_inv_skip; eassumption. }
  exists (Scan (<[w := c]> m) state_text (S (p + k)) (S w)).
  split; [|eapply text_inv_keep; eassumption].
  destruct (Z.eqb_spec c LT) as [->|Hlt]; [|apply Hwt; auto].
  unfold ngx_http_no_newlines_handle_tags, load. rewrite Hmc. simpl.
  rewrite store_Some by lia. simpl.
  rewrite (is_tag_pre_ext dm _ m0).
  - rewrite Hnotag by (assumption || lia). simpl. apply Hwt.
    + destruct (decide (w = p + k)) as [->|Hne].
      * apply list_lookup_insert_eq. lia.
      * rewrite list_lookup_insert_ne by exact Hne. exact Hmc.
    + apply list_insert_insert_eq.
    + rewrite length_insert. exact Hlen.
  - intros i Hi. rewrite list_lookup_insert_ne by lia. apply Hag. lia.
Qed.

Lemma text_run (k : nat) :
  forall (j : nat) (s : scan),
    j + k <= l - p -> text_inv m0 p j s ->
    exists s', strip_iter dm k s = Some s' /\ text_inv m0 p (j + k) s'.
Proof.
  induction k as [|k IH]; intros j s Hjk Hinv; simpl.
  - exists s. rewrite Nat.add_0_r. auto.
  - destruct (text_step j s) as (s1 & -> & H1); [lia|exact Hinv|]. simpl.
    replace (j + S k) with (S j + k) by lia. apply IH; [lia|exact H1].
Qed.

Lemma text_inv_start :
  text_inv m0 p 0 (Scan m0 state_text p p).
Proof.
  unfold text_inv. simpl. rewrite Nat.add_0_r, !buf_bytes_empty.
  repeat split; auto; lia.
Qed.

End TextRun.

(** The scan of a buffer in which the dispatcher finds no tag. *)
Lemma text_scan_strips_newlines (dm : data_model) (m : list Z)
    (buffer : ngx_buf_t) :
  pos buffer <= last buffer <= length m ->
  (forall i, pos buffer <= i < last buffer -> m !! i = Some LT ->
             is_tag_pre dm m (S i) = Some 0%Z) ->
  exists (m' : list Z) (w : nat),
    ngx_http_no_newlines_strip_buffer dm m buffer state_text
      = Some (m', Buf (pos buffer) w, state_text) /\
    buf_bytes m' (pos buffer) w
      = remove_newlines (buf_bytes m (pos buffer) (last buffer)).
Proof.
  intros Hrange Hnotag.
  destruct (text_run dm m (pos buffer) (last buffer) Hrange Hnotag
              (last buffer - pos buffer) 0
              (Scan m state_text (pos buffer) (pos buffer)))
    as (s & Hs & Hinv); [lia|apply text_inv_start|].
  destruct s as [m' st r w].
  destruct Hinv as (Hst & _ & _ & _ & _ & Hout). scan_simpl. subst st.
  exists m', w. unfold ngx_http_no_newlines_strip_buffer.
  rewrite Hs. simpl. split; [reflexivity|].
  rewrite Hout. do 2 f_equal. lia.
Qed.

Lemma strip_iter_snoc (dm : data_model) (k : nat) :
  forall s : scan,
    strip_iter dm (S k) s = strip_iter dm k s ≫= strip_step dm.
Proof.
  induction k as [|k IH]; intros s.
  - simpl. destruct (strip_step dm s); reflexivity.
  - change (strip_iter dm (S (S k)) s)
      with (strip_step dm s ≫= strip_iter dm (S k)).
    change (strip_iter dm (S k) s) with (strip_step dm s ≫= strip_iter dm k).
    destruct (strip_step dm s) as [s1|]; simpl; [apply IH|reflexivity].
Qed.

(** A scan that is in the text state after each of its turns has met no
    opening angle that the classifier takes for a tag. *)
Lemma text_states_no_tag (dm : data_model) (m0 : list Z) (p : nat) (k : nat) :
  p + k <= length m0 ->
  (forall j, j <= k ->
     exists s, strip_iter dm j (Scan m0 state_text p p) = Some s /\
               scan_state s = state_text) ->
  forall i, p <= i < p + k -> m0 !! i = Some LT ->
            is_tag_pre dm m0 (S i) = Some 0%Z.
Proof.
  induction k as [|k IH]; intros Hlen Hrun i Hi Hc; [lia|].
  assert (Hpre : forall i', p <= i' < p + k -> m0 !! i' = Some LT ->
            is_tag_pre dm m0 (S i') = Some 0%Z).
  { apply IH; [lia|]. intros j Hj. apply Hrun. lia. }
  destruct (decide (i = p + k)) as [->|Hne]; [|apply Hpre; [lia|exact Hc]].
  destruct (text_run dm m0 p (p + k) ltac:(lia) Hpre k 0
              (Scan m0 state_text p p)) as (sk & Hk & Hinv);
    [lia|apply text_inv_start|].
  destruct (Hrun (S k) ltac:(lia)) as (s' & Hs' & Hst').
  change (0 + k) with k in Hinv.
  rewrite strip_iter_snoc, Hk in Hs'.
  change (strip_step dm sk = Some s') in Hs'.
  destruct sk as [m st r w].
  destruct Hinv as (Hst & Hr & Hw & Hl & Hag & _). scan_simpl. subst st r.
  assert (Hmc : m !! (p + k) = Some LT) by (rewrite Hag by lia; exact Hc).
  unfold strip_step, load in Hs'. rewrite Hmc in Hs'.
  change (ngx_http_no_newlines_handle_tags dm m (p + k) w state_text
          ≫= (fun '(m1, st1) => write_through m1 st1 (p + k) w) = Some s')
    in Hs'.
  unfold ngx_http_no_newlines_handle_tags, load in Hs'.
  rewrite Hmc in Hs'. cbn [mbind option_bind] in Hs'.
  rewrite store_Some in Hs' by lia. cbn [mbind option_bind] in Hs'.
  rewrite (is_tag_pre_ext dm _ m0) in Hs'.
  2:{ intros i Hi'. rewrite list_lookup_insert_ne by lia. apply Hag. lia. }
  destruct (is_tag_pre dm m0 (S (p + k))) as [b|];
    cbn [mbind option_bind] in Hs'; [|discriminate].
  destruct (decide (b = 0%Z)) as [Hb|Hb]; [congruence|].
  apply Z.eqb_neq in Hb. rewrite Hb in Hs'.
  destruct (copy_bytes 3 _ _ _) as [m3|];
    cbn [mbind option_bind] in Hs'; [|discriminate].
  apply write_through_inv in Hs' as (c & _ & _ & ->).
  discriminate Hst'.
Qed.

(** X20: a buffer inside the memory whose scan is in [state_text] after each
    of its turns, the last one included, comes out as its input without the
    CR and LF bytes and with every other byte kept, in order. *)
Theorem text_state_strips_newlines (dm : data_model) (m : list Z)
    (buffer : ngx_buf_t) :
  pos buffer <= last buffer <= length m ->
  (forall k, k <= last buffer - pos buffer ->
     exists s, strip_iter dm k (Scan m state_text (pos buffer) (pos buffer))
                 = Some s /\ scan_state s = state_text) ->
  exists (m' : list Z) (w : nat),
    ngx_http_no_newlines_strip_buffer dm m buffer state_text
      = Some (m', Buf (pos buffer) w, state_text) /\
    buf_bytes m' (pos buffer) w
      = remove_newlines (buf_bytes m (pos buffer) (last buffer)).
Proof.
  intros Hrange Hrun. apply text_scan_strips_newlines; [exact Hrange|].
  intros i Hi.
  apply (text_states_no_tag dm m (pos buffer) (last buffer - pos buffer));
    [lia|exact Hrun|lia].
Qed.

Lemma text_state_strips_newlines_witness :
  exists (m' : list Z) (w : nat),
    ngx_http_no_newlines_strip_buffer LP64 text_with_newline (Buf 0 4)
      state_text = Some (m', Buf 0 w, state_text) /\
    buf_bytes m' 0 w = bytes "ab".
Proof.
  assert (Hrange : pos (Buf 0 4) <= last (Buf 0 4) <= length text_with_newline)
    by (simpl; lia).
  assert (Hrun : forall k, k <= last (Buf 0 4) - pos (Buf 0 4) ->
            exists s, strip_iter LP64 k
                        (Scan text_with_newline state_text
                              (pos (Buf 0 4)) (pos (Buf 0 4))) = Some s /\
                      scan_state s = state_text).
  { intros k Hk. simpl in Hk.
    do 5 (destruct k as [|k]; [eexists; split; reflexivity|]). lia. }
  destruct (text_state_strips_newlines LP64 text_with_newline (Buf 0 4)
              Hrange Hrun) as (m' & w & Hscan & Hout).
  exists m', w. split; [exact Hscan|exact Hout].
Defined.

(** C5: each of the three bytes a LF < of the buffer is met in
    [state_text], and the buffer comes out as ap: the LF is gone, and so is
    the opening angle, in whose place stands a byte from behind the buffer.
    The input without its newlines is a followed by the angle.  The
    dispatcher has read pre and a NUL behind the end of the buffer and
    copied three bytes through its own writer, over the byte the scan then
    writes. *)
Theorem text_state_loses_angle (dm : data_model) :
  (forall k, k < 3 ->
     exists s, strip_iter dm k (Scan angle_before_pre state_text 0 0) = Some s /\
               scan_state s = state_text) /\
  remove_newlines (buf_bytes angle_before_pre 0 3) = bytes "a<" /\
  exists m' : list Z,
    ngx_http_no_newlines_strip_buffer dm angle_before_pre (Buf 0 3) state_text
      = Some (m', Buf 0 2, state_tag_pre) /\
    buf_bytes m' 0 2 = bytes "ap".
Proof.
  split; [|split; [reflexivity|]].
  - intros k Hk.
    do 3 (destruct k as [|k];
          [destruct dm; eexists; split; vm_compute; reflexivity|]).
    lia.
  - destruct dm; eexists; split; vm_compute; reflexivity.
Qed.

(** ** The scans of the helpers

    Neither helper is given the end of the buffer.  Their loops stop at a
    byte of the memory or leave the memory: the fuel of the embedding is
    never what ends them. *)

Lemma copy_bytes_length (i : nat) :
  forall (m m' : memory) (reader writer : nat),
    copy_bytes i m reader writer = Some m' -> length m' = length m.
Proof.
  induction i as [|i IH]; intros m m' r w; simpl.
  - intros [= <-]. reflexivity.
  - destruct (load m r) as [c|]; simpl; [|discriminate].
    destruct (store m w c) as [m1|] eqn:E; simpl; [|discriminate].
    intros H. apply IH in H. rewrite H. eapply store_length; eassumption.
Qed.

Lemma copy_to_slash_inv (fuel : nat) :
  forall (m m' : memory) (r w r' w' : nat),
    copy_to_slash fuel m r w = Some (m', r', w') ->
    length m' = length m /\ r <= r' < length m /\
    m' !! r' = Some SLASH /\ w' + r = w + r'.
Proof.
  induction fuel as [|fuel IH]; intros m m' r w r' w'; simpl; [discriminate|].
  destruct (load m r) as [c|] eqn:Hc; simpl; [|discriminate].
  destruct (Z.eqb_spec c SLASH) as [->|Hne].
  - intros [= <- <- <-]. apply load_lt in Hc as Hlt. auto with lia.
  - destruct (store m w c) as [m1|] eqn:E; simpl; [|discriminate].
    intros H. apply IH in H. apply store_length in E. apply load_lt in Hc.
    rewrite E in H. intuition lia.
Qed.

Lemma copy_to_slash_fuel (f1 : nat) :
  forall (f2 : nat) (m : memory) (r w : nat),
    length m - r < f1 -> length m - r < f2 ->
    copy_to_slash f1 m r w = copy_to_slash f2 m r w.
Proof.
  induction f1 as [|f1 IH]; intros f2 m r w H1 H2; [lia|].
  destruct f2 as [|f2]; [lia|]. simpl.
  destruct (load m r) as [c|] eqn:Hc; simpl; [|reflexivity].
  destruct (c =? SLASH)%Z; [reflexivity|].
  destruct (store m w c) as [m1|] eqn:E; simpl; [|reflexivity].
  apply store_length in E. apply load_lt in Hc.
  apply IH; rewrite E; lia.
Qed.

Lemma scan_to_close_inv (dm : data_model) (fuel : nat) :
  forall (m m' : memory) (r w r' w' : nat),
    scan_to_close dm fuel m r w = Some (m', r', w') ->
    length m' = length m /\ r < r' <= length m /\
    m' !! (r' - 1) = Some SLASH /\ is_tag_pre dm m' r' = Some 1%Z /\
    w' + r = w + r'.
Proof.
  induction fuel as [|fuel IH]; intros m m' r w r' w'; [discriminate|].
  cbn [scan_to_close].
  destruct (copy_to_slash (S (length m)) m r w) as [[[m1 r1] w1]|] eqn:E1; simpl;
    [|discriminate].
  apply copy_to_slash_inv in E1 as (L1 & R1 & S1 & W1).
  unfold load. rewrite S1. simpl.
  destruct (store m1 w1 SLASH) as [m2|] eqn:E2; simpl; [|discriminate].
  apply store_inv in E2 as [Hw1 ->].
  destruct (is_tag_pre dm _ (S r1)) as [b|] eqn:Eb; simpl; [|discriminate].
  destruct (Z.eqb_spec b 1) as [->|Hb].
  - intros [= <- <- <-]. rewrite length_insert. simpl.
    rewrite Nat.sub_0_r.
    repeat split; try lia; [|exact Eb].
    destruct (decide (w1 = r1)) as [->|Hne].
    + apply list_lookup_insert_eq. lia.
    + rewrite list_lookup_insert_ne by exact Hne. exact S1.
  - intros H. apply IH in H. rewrite length_insert in H. intuition lia.
Qed.

Lemma scan_to_close_fuel (dm : data_model) (f1 : nat) :
  forall (f2 : nat) (m : memory) (r w : nat),
    length m - r < f1 -> length m - r < f2 ->
    scan_to_close dm f1 m r w = scan_to_close dm f2 m r w.
Proof.
  induction f1 as [|f1 IH]; intros f2 m r w H1 H2; [lia|].
  destruct f2 as [|f2]; [lia|]. cbn [scan_to_close].
  destruct (copy_to_slash (S (length m)) m r w) as [[[m1 r1] w1]|] eqn:E1; simpl;
    [|reflexivity].
  apply copy_to_slash_inv in E1 as (L1 & R1 & S1 & W1).
  destruct (load m1 r1) as [c|]; simpl; [|reflexivity].
  destruct (store m1 w1 c) as [m2|] eqn:E2; simpl; [|reflexivity].
  apply store_length in E2.
  destruct (is_tag_pre dm m2 (S r1)) as [b|]; simpl; [|reflexivity].
  destruct (b =? 1)%Z; [reflexivity|].
  apply IH; rewrite E2, L1; lia.
Qed.

(** The cursors of the scanner move together: its writer stays as far behind
    its reader as it was at the call. *)
Lemma scanner_cursors (dm : data_model) (fuel : nat) (m m' : memory)
    (r w r' w' : nat) :
  scan_to_close dm fuel m r w = Some (m', r', w') ->
  w <= r -> w' <= r'.
Proof. intros H Hwr. apply scan_to_close_inv in H. lia. Qed.

(** ** The classifier and the tags of a page *)

(** C2: the classifier does not look at three bytes only.  The bytes pre
    followed by a closing angle are rejected, the same bytes followed by a
    NUL are accepted: the answer depends on the fourth byte. *)
Theorem is_tag_pre_reads_fourth_byte (dm : data_model) :
  spells_pre (bytes "pre>") 0 /\
  is_tag_pre dm (bytes "pre>") 0 = Some 0%Z /\
  is_tag_pre dm (bytes "pre" ++ [NUL]) 0 = Some 1%Z.
Proof.
  split; [|split; destruct dm; reflexivity].
  exists 112%Z, 114%Z, 101%Z. repeat split; reflexivity.
Qed.

(** C1: scanned from the text state, the page <pre> CR LF foo CR LF </pre>
    loses its four newline bytes, and the state is [state_text] at every
    turn: the opening tag is not recognised. *)
Theorem pre_region_loses_newlines (dm : data_model) :
  (forall k, k <= 18 ->
     exists s, strip_iter dm k (Scan pre_region state_text 0 0) = Some s /\
               scan_state s = state_text) /\
  exists m' : list Z,
    ngx_http_no_newlines_strip_buffer dm pre_region (Buf 0 18) state_text
      = Some (m', Buf 0 14, state_text) /\
    buf_bytes m' 0 14 = bytes "<pre>foo</pre>".
Proof.
  split.
  - intros k Hk.
    do 19 (destruct k as [|k];
           [destruct dm; eexists; split; vm_compute; reflexivity|]).
    lia.
  - destruct dm; eexists; split; vm_compute; reflexivity.
Qed.

(** C3: on an opening angle followed by pre and a closing angle the turn of
    the scan leaves the state at [state_text].  Followed by pre and a NUL the
    state becomes [state_tag_pre], and the cursors of the scan have moved by
    one byte, not by four: the dispatcher moved its own copies. *)
Theorem handle_tags_leaves_scan_cursors (dm : data_model) :
  strip_step dm (Scan (bytes "<pre>x") state_text 0 0)
    = Some (Scan (bytes "<pre>x") state_text 1 1) /\
  ngx_http_no_newlines_handle_tags dm pre_nul_open 0 0 state_text
    = Some (pre_nul_open, state_tag_pre) /\
  strip_step dm (Scan pre_nul_open state_text 0 0)
    = Some (Scan pre_nul_open state_tag_pre 1 1).
Proof. repeat split; destruct dm; reflexivity. Qed.

(** C4: in ab</pre> the scanner copies up to the slash, classifies the
    bytes pre and the closing angle as no match, searches on and leaves the
    memory.  With a NUL in place of the angle it stops and the state is
    [state_text] again. *)
Theorem scanner_misses_closing_tag (dm : data_model) :
  ngx_http_no_newlines_ignore_preformatted_text dm (bytes "ab</pre>") 0 0
    state_tag_pre = None /\
  ngx_http_no_newlines_ignore_preformatted_text dm
    (bytes "ab</pre" ++ [NUL]) 0 0 state_tag_pre
    = Some (bytes "ab</pre" ++ [NUL], state_text).
Proof. split; destruct dm; reflexivity. Qed.

(** ** The filters *)

(** X15: the header filter sends a response on to the next header filter as
    it is, without a context, when its status is none of 200, 403 and 404,
    or it has no body, or no content type, or a content encoding of positive
    length. *)
Lemma header_filter_passes_through (dm : data_model)
    (next : ngx_http_request_t -> Z) (r : ngx_http_request_t) :
  (status (headers_out r) <> NGX_HTTP_OK /\
   status (headers_out r) <> NGX_HTTP_FORBIDDEN /\
   status (headers_out r) <> NGX_HTTP_NOT_FOUND) \/
  header_only r = true \/
  len (content_type (headers_out r)) = 0 \/
  (exists e, content_encoding (headers_out r) = Some e /\
             len (value e) <> 0) ->
  ngx_http_no_newlines_header_filter dm next r = Some (next r).
Proof.
  intros H. unfold ngx_http_no_newlines_header_filter.
  match goal with |- (if ?c then _ else _) = _ => assert (Hc : c = true) end;
    [|rewrite Hc; reflexivity].
  destruct H as [(H1 & H2 & H3)|[H|[H|(e & He & H)]]].
  - apply Z.eqb_neq in H1, H2, H3. rewrite H1, H2, H3. reflexivity.
  - rewrite H. rewrite orb_true_r. reflexivity.
  - rewrite H. simpl. rewrite orb_true_r. reflexivity.
  - rewrite He. apply Nat.eqb_neq in H. rewrite H. simpl.
    apply orb_true_r.
Qed.

(** Past the gate, a context is attached when the first [sizeof_pointer dm]
    bytes of the content type agree with those of text/html. *)
Lemma header_filter_attaches (dm : data_model)
    (next : ngx_http_request_t -> Z) (r : ngx_http_request_t) :
  (status (headers_out r) = NGX_HTTP_OK \/
   status (headers_out r) = NGX_HTTP_FORBIDDEN \/
   status (headers_out r) = NGX_HTTP_NOT_FOUND) ->
  header_only r = false ->
  len (content_type (headers_out r)) <> 0 ->
  content_encoding (headers_out r) = None ->
  pool_has_room r = true ->
  agree_nocase (data (content_type (headers_out r))) 0
               (c_literal "text/html") (sizeof_pointer dm) ->
  ngx_http_no_newlines_header_filter dm next r
  = Some (next (set_main_filter_need_in_memory
                  (ngx_http_clear_accept_ranges
                     (ngx_http_clear_content_length
                        (ngx_http_set_ctx r (Ctx state_text)))))).
Proof.
  intros Hst Hho Hlen Henc Hpool Hct.
  unfold ngx_http_no_newlines_header_filter, ngx_pcalloc.
  apply ngx_strncasecmp_0 in Hct.
  apply Nat.eqb_neq in Hlen. rewrite Hho, Hlen, Henc, Hct, Hpool.
  replace (negb (status (headers_out r) =? NGX_HTTP_OK)%Z &&
           negb (status (headers_out r) =? NGX_HTTP_FORBIDDEN)%Z &&
           negb (status (headers_out r) =? NGX_HTTP_NOT_FOUND)%Z)
    with false; [reflexivity|].
  destruct Hst as [->|[->| ->]]; reflexivity.
Qed.

(** C6: a response of status 200 with the content type text/htmx gets a
    context, and its length and range headers are cleared, although a
    comparison over the nine bytes of text/html tells the two apart. *)
Theorem header_filter_accepts_htmx (dm : data_model)
    (next : ngx_http_request_t -> Z) :
  ngx_strncasecmp (bytes "text/htmx") 0 (c_literal "text/html") 9
    = Some 12%Z /\
  ngx_http_no_newlines_header_filter dm next (html_request "text/htmx")
    = Some (next (Request
                    (HeadersOut NGX_HTTP_OK (Str 9 (c_literal "text/htmx"))
                                None None (-1)%Z None)
                    false false true true (Some (Ctx state_text)))).
Proof. split; destruct dm; reflexivity. Qed.

(** C7: with a context attached, the chain of the single buffer
    <pre NUL abc is not scanned to its end: the scanner, entered at the
    second byte, finds no slash and reads past the last byte of the
    memory. *)
Theorem body_filter_overruns (dm : data_model)
    (next : ngx_http_request_t -> list Z -> ngx_chain_t -> Z)
    (r : ngx_http_request_t) (st : ngx_http_no_newlines_state_e) :
  ngx_http_no_newlines_body_filter dm next (ngx_http_set_ctx r (Ctx st))
    pre_nul_open [Buf 0 8] = None /\
  ngx_http_no_newlines_strip_buffer dm (bytes "abc") (Buf 0 3) state_tag_pre
    = None.
Proof. split; destruct dm; reflexivity. Qed.

(** C9: with a context attached, the body filter starts the scan of its
    chain in [state_text], whatever state the context holds on entry. *)
Theorem body_filter_resets_state (dm : data_model)
    (next : ngx_http_request_t -> list Z -> ngx_chain_t -> Z)
    (r : ngx_http_request_t) (m : list Z) (chain : ngx_chain_t)
    (st : ngx_http_no_newlines_state_e) :
  ngx_http_no_newlines_body_filter dm next (ngx_http_set_ctx r (Ctx st))
    m chain
  = ngx_http_no_newlines_body_filter dm next
      (ngx_http_set_ctx r (Ctx state_text)) m chain /\
  ngx_http_no_newlines_body_filter dm next (ngx_http_set_ctx r (Ctx st))
    m chain
  = ('(m', chain', st') ← strip_chain dm m state_text chain;
     Some (next (ngx_http_set_ctx r (Ctx st')) m' chain')).
Proof. split; reflexivity. Qed.

(** The state the reset discards can be [state_tag_pre]: an opening angle in
    the last byte of a buffer, with pre and a NUL behind the buffer, ends the
    invocation in that state. *)
Lemma body_filter_can_end_in_pre (dm : data_model) :
  strip_chain dm (bytes "<pre" ++ [NUL]) state_text [Buf 0 1]
  = Some (bytes "<pre" ++ [NUL], [Buf 0 1], state_tag_pre).
Proof. destruct dm; reflexivity. Qed.

(** C10: without a context the body filter hands the request, the memory
    and the chain it was given to the next filter: no byte, no cursor and
    no length is changed. *)
Theorem body_filter_without_context (dm : data_model)
    (next : ngx_http_request_t -> list Z -> ngx_chain_t -> Z)
    (r : ngx_http_request_t) (m : list Z) (chain : ngx_chain_t) :
  ctx r = None ->
  ngx_http_no_newlines_body_filter dm next r m chain
  = Some (next r m chain).
Proof.
  intros Hctx. unfold ngx_http_no_newlines_body_filter. rewrite Hctx.
  reflexivity.
Qed.

Lemma body_filter_without_context_witness :
  ngx_http_no_newlines_body_filter LP64
    (fun _ m chain => Z.of_nat (length m + length chain))
    (html_request "image/png") text_with_newline [Buf 0 4]
  = Some 5%Z.
Proof.
  apply (body_filter_without_context LP64
           (fun _ m chain => Z.of_nat (length m + length chain))
           (html_request "image/png") text_with_newline [Buf 0 4]).
  reflexivity.
Defined.

(** * Further properties of the code *)

(** ** The classifier's window *)

Lemma ngx_strncasecmp_window (n : nat) :
  forall (m m' : memory) (s1 : nat) (s2 : list u_char) (k : nat),
    s2 !! k = Some NUL ->
    (forall i, s1 <= i <= s1 + k -> m !! i = m' !! i) ->
    ngx_strncasecmp m s1 s2 n = ngx_strncasecmp m' s1 s2 n.
Proof.
  induction n as [|n IH]; intros m m' s1 s2 k Hk Hagree; simpl;
    [reflexivity|].
  unfold load. rewrite <- (Hagree s1) by lia.
  destruct (m !! s1) as [c1|]; simpl; [|reflexivity].
  destruct s2 as [|c2 s2]; simpl; [reflexivity|].
  destruct (Z.eqb_spec (ngx_tolower c1) (ngx_tolower c2)) as [Heq|Hne];
    [|reflexivity].
  destruct (Z.eqb_spec (ngx_tolower c1) 0) as [Hz|Hnz]; [reflexivity|].
  destruct k as [|k].
  - simpl in Hk. injection Hk as ->. rewrite Heq in Hnz.
    exfalso. apply Hnz. reflexivity.
  - apply (IH _ _ _ _ k); [exact Hk|].
    intros i Hi. apply Hagree. lia.
Qed.

Lemma ngx_strncasecmp_readable (n : nat) :
  forall (m : memory) (s1 : nat) (s2 : list u_char),
    s1 + n <= length m -> n <= length s2 ->
    is_Some (ngx_strncasecmp m s1 s2 n).
Proof.
  induction n as [|n IH]; intros m s1 s2 Hm Hs; simpl; [eauto|].
  unfold load.
  destruct (lookup_lt_is_Some_2 m s1) as [c1 ->]; [lia|]. simpl.
  destruct s2 as [|c2 s2]; simpl in *; [lia|].
  destruct (_ =? _)%Z; [|eauto].
  destruct (_ =? _)%Z; [eauto|].
  apply IH; lia.
Qed.

(** X1: the classifier looks at no more than the four bytes from [p] on,
    under either data model: two memories that agree there get the same
    answer. *)
Theorem is_tag_pre_window (dm : data_model) (m m' : list Z) (p : nat) :
  (forall i, p <= i < p + 4 -> m !! i = m' !! i) ->
  is_tag_pre dm m p = is_tag_pre dm m' p.
Proof.
  intros H. unfold is_tag_pre.
  rewrite (ngx_strncasecmp_window _ m m' p (c_literal "pre") 3);
    [reflexivity|reflexivity|].
  intros i Hi. apply H. lia.
Qed.

Lemma is_tag_pre_window_witness :
  is_tag_pre LP64 (bytes "pre" ++ [NUL] ++ bytes "<b>") 0
  = is_tag_pre LP64 (bytes "pre" ++ [NUL] ++ bytes "xyz") 0.
Proof.
  apply is_tag_pre_window. intros i Hi.
  do 4 (destruct i as [|i]; [reflexivity|]). lia.
Defined.

Lemma is_tag_pre_readable (dm : data_model) (m : memory) (p : nat) :
  p + 4 <= length m -> is_Some (is_tag_pre dm m p).
Proof.
  intros Hlen.
  destruct (ngx_strncasecmp_readable 4 (take (p + 4) m) p (c_literal "pre"))
    as [r Hr]; [rewrite length_take; lia|simpl; lia|].
  unfold is_tag_pre.
  rewrite (ngx_strncasecmp_window _ m (take (p + 4) m) p _ 3);
    [|reflexivity|intros i Hi; rewrite lookup_take_lt by lia; reflexivity].
  assert (Hn : ngx_strncasecmp (take (p + 4) m) p (c_literal "pre")
                 (sizeof_pointer dm) = Some r).
  { destruct dm; [exact Hr|].
    change (sizeof_pointer LP64) with (4 + 4).
    revert Hr. generalize (take (p + 4) m). intros l.
    cbn [ngx_strncasecmp Nat.add]. unfold load.
    destruct (l !! p) as [c0|]; simpl; [|discriminate].
    destruct (_ =? _)%Z; [|auto]. destruct (_ =? _)%Z; [auto|].
    destruct (l !! S p) as [c1|]; simpl; [|discriminate].
    destruct (_ =? _)%Z; [|auto]. destruct (_ =? _)%Z; [auto|].
    destruct (l !! S (S p)) as [c2|]; simpl; [|discriminate].
    destruct (_ =? _)%Z; [|auto]. destruct (_ =? _)%Z; [auto|].
    destruct (l !! S (S (S p))) as [c3|]; simpl; [|discriminate].
    destruct (Z.eqb_spec (ngx_tolower c3) (ngx_tolower NUL)) as [E|]; [|auto].
    change (ngx_tolower NUL) with 0%Z in E. rewrite E. simpl. auto. }
  rewrite Hn. simpl. destruct (r =? 0)%Z; eauto.
Qed.

Lemma is_tag_pre_result (dm : data_model) (m : memory) (p : nat) (b : Z) :
  is_tag_pre dm m p = Some b -> b = 0%Z \/ b = 1%Z.
Proof.
  unfold is_tag_pre. destruct (ngx_strncasecmp _ _ _ _) as [r|]; simpl;
    [|discriminate].
  destruct (r =? 0)%Z; intros [= <-]; auto.
Qed.

(** X2: when the four bytes from [p] on are addressable the classifier
    answers, with 1 if they spell pre, in either case, followed by a NUL
    byte, and with 0 otherwise. *)
Theorem is_tag_pre_total (dm : data_model) (m : list Z) (p : nat) :
  p + 4 <= length m ->
  exists b : Z,
    is_tag_pre dm m p = Some b /\
    (b = 1%Z /\ spells_pre m p /\ m !! (p + 3) = Some NUL \/
     b = 0%Z /\ ~ (spells_pre m p /\ m !! (p + 3) = Some NUL)).
Proof.
  intros Hlen. destruct (is_tag_pre_readable dm m p Hlen) as [b Hb].
  exists b. split; [exact Hb|].
  replace (p + 3) with (S (S (S p))) by lia.
  destruct (is_tag_pre_result dm m p b Hb) as [-> | ->].
  - right. split; [reflexivity|]. intros H.
    apply (is_tag_pre_accepts dm) in H. rewrite H in Hb. discriminate.
  - left. split; [reflexivity|]. apply (is_tag_pre_accepts dm). exact Hb.
Qed.

Lemma is_tag_pre_total_witness :
  exists b : Z,
    is_tag_pre ILP32 (bytes "</PRE>") 2 = Some b /\
    (b = 1%Z /\ spells_pre (bytes "</PRE>") 2 /\
       bytes "</PRE>" !! (2 + 3) = Some NUL \/
     b = 0%Z /\ ~ (spells_pre (bytes "</PRE>") 2 /\
                   bytes "</PRE>" !! (2 + 3) = Some NUL)).
Proof.
  apply (is_tag_pre_total ILP32 (bytes "</PRE>") 2). simpl. lia.
Defined.

(** ** The dispatcher's peek *)

Lemma is_tag_pre_outside (dm : data_model) (m : memory) (p : nat) :
  length m <= p -> is_tag_pre dm m p = None.
Proof.
  intros H. unfold is_tag_pre.
  destruct dm; simpl; unfold load; rewrite (lookup_ge_None_2 m p H);
    reflexivity.
Qed.

(** X3: the dispatcher always reads the byte behind the opening angle: when
    the angle is the last byte of the memory, the turn of the scan leaves
    the memory. *)
Theorem angle_at_memory_end (dm : data_model) (m : list Z) (r w : nat) :
  m !! r = Some LT -> length m = S r ->
  strip_step dm (Scan m state_text r w) = None.
Proof.
  intros Hc Hlen. unfold strip_step, load. rewrite Hc.
  change (ngx_http_no_newlines_handle_tags dm m r w state_text
          ≫= (fun '(m1, st1) => write_through m1 st1 r w) = None).
  unfold ngx_http_no_newlines_handle_tags, load. rewrite Hc.
  cbn [mbind option_bind].
  destruct (store m w LT) as [m1|] eqn:E; [|reflexivity].
  cbn [mbind option_bind]. apply store_length in E.
  rewrite is_tag_pre_outside by lia. reflexivity.
Qed.

Lemma angle_at_memory_end_witness :
  strip_step LP64 (Scan (bytes "ab<") state_text 2 2) = None.
Proof. apply angle_at_memory_end; reflexivity. Defined.

(** ** The scanner *)

Lemma copy_to_slash_no_slash (fuel : nat) :
  forall (m : memory) (r w : nat),
    w <= r ->
    (forall i, r <= i -> m !! i <> Some SLASH) ->
    copy_to_slash fuel m r w = None.
Proof.
  induction fuel as [|fuel IH]; intros m r w Hwr Hno; simpl; [reflexivity|].
  unfold load. destruct (m !! r) as [c|] eqn:Hc; simpl; [|reflexivity].
  destruct (Z.eqb_spec c SLASH) as [->|Hne].
  { exfalso. apply (Hno r); [lia|exact Hc]. }
  destruct (store m w c) as [m1|] eqn:E; simpl; [|reflexivity].
  apply store_inv in E as [_ ->].
  apply IH; [lia|]. intros i Hi.
  rewrite list_lookup_insert_ne by lia. apply Hno. lia.
Qed.

(** X5: without a slash at or behind the reader the scanner does not come
    back: it copies on until it leaves the memory. *)
Theorem scanner_needs_slash (dm : data_model) (m : list Z) (r w : nat)
    (st : ngx_http_no_newlines_state_e) :
  w <= r ->
  (forall i, r <= i -> m !! i <> Some SLASH) ->
  ngx_http_no_newlines_ignore_preformatted_text dm m r w st = None.
Proof.
  intros Hwr Hno. unfold ngx_http_no_newlines_ignore_preformatted_text.
  cbn [scan_to_close].
  rewrite copy_to_slash_no_slash by assumption. reflexivity.
Qed.

Lemma scanner_needs_slash_witness :
  ngx_http_no_newlines_ignore_preformatted_text LP64
    (bytes "x" ++ crlf ++ bytes "<pre>") 1 0 state_tag_pre = None.
Proof.
  apply scanner_needs_slash; [lia|].
  intros i Hi. do 8 (destruct i as [|i]; [discriminate|]). discriminate.
Defined.

Lemma store_same (m : memory) (p : nat) (c : u_char) :
  m !! p = Some c -> store m p c = Some m.
Proof.
  intros H. unfold store. rewrite H. simpl. rewrite list_insert_id by exact H.
  reflexivity.
Qed.

Lemma copy_bytes_in_place (i : nat) :
  forall (m : memory) (r : nat),
    r + i <= length m -> copy_bytes i m r r = Some m.
Proof.
  induction i as [|i IH]; intros m r H; simpl; [reflexivity|].
  unfold load. destruct (lookup_lt_is_Some_2 m r) as [c Hc]; [lia|].
  rewrite Hc. simpl. rewrite (store_same m r c Hc). simpl.
  apply IH. lia.
Qed.

Lemma copy_bytes_in_place_inv (i : nat) :
  forall (m m' : memory) (r : nat),
    copy_bytes i m r r = Some m' -> m' = m.
Proof.
  induction i as [|i IH]; intros m m' r; simpl.
  - intros [= <-]. reflexivity.
  - unfold load. destruct (m !! r) as [c|] eqn:Hc; simpl; [|discriminate].
    rewrite (store_same m r c Hc). simpl. apply IH.
Qed.

Lemma copy_to_slash_in_place_inv (fuel : nat) :
  forall (m m' : memory) (r r' w' : nat),
    copy_to_slash fuel m r r = Some (m', r', w') -> m' = m /\ w' = r'.
Proof.
  induction fuel as [|fuel IH]; intros m m' r r' w'; simpl; [discriminate|].
  unfold load. destruct (m !! r) as [c|] eqn:Hc; simpl; [|discriminate].
  destruct (c =? SLASH)%Z.
  - intros [= <- <- <-]. auto.
  - rewrite (store_same m r c Hc). simpl. apply IH.
Qed.

Lemma copy_to_slash_in_place (fuel : nat) :
  forall (m : memory) (r j : nat),
    r <= j -> m !! j = Some SLASH -> j - r < fuel ->
    exists j1, r <= j1 <= j /\ m !! j1 = Some SLASH /\
               copy_to_slash fuel m r r = Some (m, j1, j1).
Proof.
  induction fuel as [|fuel IH]; intros m r j Hrj Hj Hf; [lia|]. simpl.
  unfold load.
  destruct (lookup_lt_is_Some_2 m r) as [c Hc].
  { apply lookup_lt_Some in Hj. lia. }
  rewrite Hc. simpl.
  destruct (Z.eqb_spec c SLASH) as [->|Hne].
  - exists r. split; [lia|]. split; [exact Hc|reflexivity].
  - assert (r <> j) by (intros ->; congruence).
    rewrite (store_same m r c Hc). simpl.
    destruct (IH m (S r) j) as (j1 & H1 & H2 & H3); [lia|exact Hj|lia|].
    exists j1. split; [lia|]. split; [exact H2|exact H3].
Qed.

Lemma scan_to_close_in_place_inv (dm : data_model) (fuel : nat) :
  forall (m m' : memory) (r r' w' : nat),
    scan_to_close dm fuel m r r = Some (m', r', w') -> m' = m /\ w' = r'.
Proof.
  induction fuel as [|fuel IH]; intros m m' r r' w'; [discriminate|].
  cbn [scan_to_close].
  destruct (copy_to_slash (S (length m)) m r r) as [[[m1 r1] w1]|] eqn:E1;
    simpl; [|discriminate].
  apply copy_to_slash_inv in E1 as H1. destruct H1 as (_ & _ & S1 & _).
  apply copy_to_slash_in_place_inv in E1 as [-> ->].
  unfold load. rewrite S1. simpl. rewrite (store_same m r1 _ S1). simpl.
  destruct (is_tag_pre dm m (S r1)) as [b|]; simpl; [|discriminate].
  destruct (b =? 1)%Z.
  - intros [= <- <- <-]. auto.
  - apply IH.
Qed.

Lemma scan_to_close_in_place (dm : data_model) (fuel : nat) :
  forall (m : memory) (r j : nat),
    r <= j -> m !! j = Some SLASH -> is_tag_pre dm m (S j) = Some 1%Z ->
    length m - r < fuel ->
    exists j', r < j' /\ is_tag_pre dm m j' = Some 1%Z /\
               scan_to_close dm fuel m r r = Some (m, j', j').
Proof.
  induction fuel as [|fuel IH]; intros m r j Hrj Hj Htag Hf; [lia|].
  assert (Hlen : S j + 4 <= length m).
  { apply is_tag_pre_accepts in Htag as [_ H].
    apply lookup_lt_Some in H. lia. }
  cbn [scan_to_close].
  destruct (copy_to_slash_in_place (S (length m)) m r j)
    as (j1 & H1 & S1 & ->); [exact Hrj|exact Hj|lia|]. simpl.
  unfold load. rewrite S1. simpl. rewrite (store_same m j1 _ S1). simpl.
  destruct (decide (j1 = j)) as [->|Hne].
  { rewrite Htag. simpl. exists (S j). split; [lia|]. split; [exact Htag|].
    reflexivity. }
  destruct (is_tag_pre_readable dm m (S j1)) as [b Hb]; [lia|].
  rewrite Hb. simpl.
  destruct (Z.eqb_spec b 1) as [->|Hb1].
  { exists (S j1). split; [lia|]. split; [exact Hb|reflexivity]. }
  destruct (IH m (S j1) j) as (j' & G1 & G2 & G3);
    [lia|exact Hj|exact Htag|lia|].
  exists j'. split; [lia|]. split; [exact G2|exact G3].
Qed.

(** X4: called with the writer on the reader, the scanner changes no byte
    and leaves the state at [state_text]; it comes back exactly when some
    slash at or behind the reader is followed by pre, in either case, and a
    NUL byte. *)
Theorem scanner_in_place (dm : data_model) (m : list Z) (r : nat)
    (st : ngx_http_no_newlines_state_e) :
  (forall res,
      ngx_http_no_newlines_ignore_preformatted_text dm m r r st = Some res ->
      res = (m, state_text)) /\
  (is_Some (ngx_http_no_newlines_ignore_preformatted_text dm m r r st) <->
   exists j, r <= j /\ m !! j = Some SLASH /\
             spells_pre m (S j) /\ m !! (j + 4) = Some NUL).
Proof.
  unfold ngx_http_no_newlines_ignore_preformatted_text.
  assert (Hinv : forall res,
    (scan_to_close dm (S (length m)) m r r
       ≫= (fun '(m1, r1, w1) =>
             copy_bytes 3 m1 r1 w1 ≫= fun m2 => Some (m2, state_text)))
      = Some res ->
    res = (m, state_text) /\
    exists j, r <= j /\ m !! j = Some SLASH /\
              is_tag_pre dm m (S j) = Some 1%Z).
  { intros res.
    destruct (scan_to_close dm (S (length m)) m r r) as [[[m1 r1] w1]|] eqn:E;
      cbn [mbind option_bind]; [|discriminate].
    apply scan_to_close_inv in E as H1.
    destruct H1 as (_ & R1 & S1 & T1 & _).
    apply scan_to_close_in_place_inv in E as [-> ->].
    destruct (copy_bytes 3 m r1 r1) as [m2|] eqn:E2;
      cbn [mbind option_bind]; [|discriminate].
    apply copy_bytes_in_place_inv in E2 as ->.
    intros [= <-]. split; [reflexivity|].
    exists (r1 - 1). split; [lia|]. split; [exact S1|].
    replace (S (r1 - 1)) with r1 by lia. exact T1. }
  split.
  - intros res H. apply Hinv in H. apply H.
  - split.
    + intros [res H]. apply Hinv in H as [_ (j & Hj & Hs & Ht)].
      exists j. apply is_tag_pre_accepts in Ht as [Hp Hn].
      replace (j + 4) with (S (S (S (S j)))) by lia. auto.
    + intros (j & Hj & Hs & Hp & Hn).
      replace (j + 4) with (S (S (S (S j)))) in Hn by lia.
      assert (Ht : is_tag_pre dm m (S j) = Some 1%Z)
        by (apply is_tag_pre_accepts; auto).
      destruct (scan_to_close_in_place dm (S (length m)) m r j)
        as (j' & G1 & G2 & ->); [exact Hj|exact Hs|exact Ht|lia|].
      cbn [mbind option_bind].
      apply is_tag_pre_accepts in G2 as [_ G2].
      apply lookup_lt_Some in G2.
      rewrite copy_bytes_in_place by lia. cbn [mbind option_bind]. eauto.
Qed.

(** ** The states of the scan *)

Lemma handle_tags_state (dm : data_model) (m m' : memory) (r w : nat)
    (st st' : ngx_http_no_newlines_state_e) :
  ngx_http_no_newlines_handle_tags dm m r w st = Some (m', st') ->
  st' = st \/ st' = state_tag_pre.
Proof.
  unfold ngx_http_no_newlines_handle_tags.
  destruct (load m r) as [c|]; cbn [mbind option_bind]; [|discriminate].
  destruct (store m w c) as [m1|]; cbn [mbind option_bind]; [|discriminate].
  destruct (is_tag_pre dm m1 (S r)) as [b|]; cbn [mbind option_bind];
    [|discriminate].
  destruct (b =? 0)%Z.
  - intros [= _ <-]. auto.
  - destruct (copy_bytes 3 m1 (S r) (S w)) as [m2|];
      cbn [mbind option_bind]; [|discriminate].
    intros [= _ <-]. auto.
Qed.

Lemma write_through_state (m : memory) (st : ngx_http_no_newlines_state_e)
    (r w : nat) (s' : scan) :
  write_through m st r w = Some s' -> scan_state s' = st.
Proof.
  intros H. apply write_through_inv in H as (c & _ & _ & ->). reflexivity.
Qed.

(** What a turn does to the state. *)
Lemma strip_step_state (dm : data_model) (s s' : scan) :
  strip_step dm s = Some s' ->
  match scan_state s with
  | state_text => scan_state s' = state_text \/ scan_state s' = state_tag_pre
  | state_tag_pre => scan_state s' = state_text
  | state_abort => scan_state s' = state_abort
  end.
Proof.
  destruct s as [m st r w]. unfold strip_step. cbn [scan_state].
  destruct st.
  - destruct (load m r) as [c|]; cbn [mbind option_bind]; [|discriminate].
    destruct ((c =? CR) || (c =? LF))%Z.
    { intros [= <-]. auto. }
    destruct (c =? LT)%Z.
    + destruct (ngx_http_no_newlines_handle_tags dm m r w state_text)
        as [[m1 st1]|] eqn:E; cbn [mbind option_bind]; [|discriminate].
      intros H. apply write_through_state in H. rewrite H.
      apply (handle_tags_state dm m m1 r w). exact E.
    + intros H. apply write_through_state in H. auto.
  - apply write_through_state.
  - unfold ngx_http_no_newlines_ignore_preformatted_text.
    destruct (scan_to_close dm (S (length m)) m r w) as [[[m1 r1] w1]|];
      cbn [mbind option_bind]; [|discriminate].
    destruct (copy_bytes 3 m1 r1 w1) as [m2|]; cbn [mbind option_bind];
      [|discriminate].
    apply write_through_state.
Qed.

(** X6: the state [state_tag_pre] lasts for one turn of the scan: the
    scanner is called, and when it comes back the state is [state_text],
    wherever in the buffer the reader of the scan stands. *)
Theorem pre_state_lasts_one_turn (dm : data_model) (s s' : scan) :
  scan_state s = state_tag_pre ->
  strip_step dm s = Some s' ->
  scan_state s' = state_text /\ scan_reader s' = S (scan_reader s).
Proof.
  intros Hst Hstep. split.
  - apply strip_step_state in Hstep. rewrite Hst in Hstep. exact Hstep.
  - apply strip_step_cursors in Hstep. apply Hstep.
Qed.

Lemma pre_state_lasts_one_turn_witness :
  scan_state (Scan (bytes "<pre" ++ [NUL] ++ crlf ++ bytes "/pre" ++ [NUL])
                   state_text 2 2) = state_text /\
  scan_reader (Scan (bytes "<pre" ++ [NUL] ++ crlf ++ bytes "/pre" ++ [NUL])
                    state_text 2 2) = 2.
Proof.
  apply (pre_state_lasts_one_turn LP64
           (Scan (bytes "<pre" ++ [NUL] ++ crlf ++ bytes "/pre" ++ [NUL])
                 state_tag_pre 1 1)); reflexivity.
Defined.

Lemma strip_iter_abort (dm : data_model) (k : nat) :
  forall s s' : scan,
    strip_iter dm k s = Some s' ->
    (scan_state s' = state_abort <-> scan_state s = state_abort).
Proof.
  induction k as [|k IH]; intros s s'; simpl.
  - intros [= <-]. tauto.
  - destruct (strip_step dm s) as [s1|] eqn:E; simpl; [|discriminate].
    intros H. apply IH in H. rewrite H.
    apply strip_step_state in E.
    destruct (scan_state s); destruct (scan_state s1);
      intuition congruence.
Qed.

(** X7: no scan enters [state_abort] and none leaves it: after the scan of
    a buffer the state is [state_abort] exactly when it was before. *)
Theorem abort_state_closed (dm : data_model) (m m' : list Z)
    (buffer buffer' : ngx_buf_t) (st st' : ngx_http_no_newlines_state_e) :
  ngx_http_no_newlines_strip_buffer dm m buffer st
    = Some (m', buffer', st') ->
  (st' = state_abort <-> st = state_abort).
Proof.
  unfold ngx_http_no_newlines_strip_buffer.
  destruct (strip_iter _ _ _) as [s|] eqn:E; simpl; [|discriminate].
  intros [= _ _ <-]. apply strip_iter_abort in E. exact E.
Qed.

Lemma abort_state_closed_witness :
  state_text = state_abort <-> state_text = state_abort.
Proof.
  apply (abort_state_closed LP64 text_with_newline
           (bytes "ab" ++ [LF] ++ bytes "b") (Buf 0 4) (Buf 0 2)).
  reflexivity.
Defined.

(** X8: in [state_abort] a buffer that lies inside the memory is passed
    through: no byte changes, the end of the buffer stays and so does the
    state. *)
Theorem abort_state_passes_through (dm : data_model) (m : list Z)
    (p l : nat) :
  p <= l <= length m ->
  ngx_http_no_newlines_strip_buffer dm m (Buf p l) state_abort
  = Some (m, Buf p l, state_abort).
Proof.
  intros Hr. unfold ngx_http_no_newlines_strip_buffer. cbn [pos last].
  assert (H : forall k r, r + k <= length m ->
            strip_iter dm k (Scan m state_abort r r)
            = Some (Scan m state_abort (r + k) (r + k))).
  { induction k as [|k IH]; intros r Hk; simpl.
    - rewrite Nat.add_0_r. reflexivity.
    - unfold write_through, load.
      destruct (lookup_lt_is_Some_2 m r) as [c Hc]; [lia|].
      rewrite Hc. simpl. rewrite (store_same m r c Hc). simpl.
      rewrite IH by lia. replace (r + S k) with (S r + k) by lia.
      reflexivity. }
  rewrite H by lia. simpl. replace (p + (l - p)) with l by lia.
  reflexivity.
Qed.

Lemma abort_state_passes_through_witness :
  ngx_http_no_newlines_strip_buffer LP64 pre_region (Buf 0 18) state_abort
  = Some (pre_region, Buf 0 18, state_abort).
Proof. apply abort_state_passes_through. simpl. lia. Defined.

(** ** What a scan leaves alone *)

Lemma store_below (m m' : memory) (p : nat) (v : u_char) :
  store m p v = Some m' ->
  length m' = length m /\ forall j, j < p -> m' !! j = m !! j.
Proof.
  intros H. apply store_inv in H as [_ ->]. split; [apply length_insert|].
  intros j Hj. apply list_lookup_insert_ne. lia.
Qed.

Lemma copy_bytes_below (i : nat) :
  forall (m m' : memory) (r w : nat),
    copy_bytes i m r w = Some m' ->
    length m' = length m /\ forall j, j < w -> m' !! j = m !! j.
Proof.
  induction i as [|i IH]; intros m m' r w; simpl.
  - intros [= <-]. auto.
  - destruct (load m r) as [c|]; simpl; [|discriminate].
    destruct (store m w c) as [m1|] eqn:E; simpl; [|discriminate].
    intros H. apply IH in H as [L H]. apply store_below in E as [L1 E].
    split; [congruence|]. intros j Hj. rewrite H by lia. apply E. exact Hj.
Qed.

Lemma copy_to_slash_below (fuel : nat) :
  forall (m m' : memory) (r w r' w' : nat),
    copy_to_slash fuel m r w = Some (m', r', w') ->
    w <= w' /\ forall j, j < w -> m' !! j = m !! j.
Proof.
  induction fuel as [|fuel IH]; intros m m' r w r' w'; simpl; [discriminate|].
  destruct (load m r) as [c|]; simpl; [|discriminate].
  destruct (c =? SLASH)%Z.
  - intros [= <- <- <-]. auto.
  - destruct (store m w c) as [m1|] eqn:E; simpl; [|discriminate].
    intros H. apply IH in H as [L H]. apply store_below in E as [_ E].
    split; [lia|]. intros j Hj. rewrite H by lia. apply E. exact Hj.
Qed.

Lemma scan_to_close_below (dm : data_model) (fuel : nat) :
  forall (m m' : memory) (r w r' w' : nat),
    scan_to_close dm fuel m r w = Some (m', r', w') ->
    w <= w' /\ forall j, j < w -> m' !! j = m !! j.
Proof.
  induction fuel as [|fuel IH]; intros m m' r w r' w'; [discriminate|].
  cbn [scan_to_close].
  destruct (copy_to_slash (S (length m)) m r w) as [[[m1 r1] w1]|] eqn:E1;
    cbn [mbind option_bind]; [|discriminate].
  apply copy_to_slash_below in E1 as [L1 E1].
  destruct (load m1 r1) as [c|]; cbn [mbind option_bind]; [|discriminate].
  destruct (store m1 w1 c) as [m2|] eqn:E2; cbn [mbind option_bind];
    [|discriminate].
  apply store_below in E2 as [_ E2].
  assert (Hm2 : forall j, j < w -> m2 !! j = m !! j).
  { intros j Hj. rewrite E2 by lia. apply E1. exact Hj. }
  destruct (is_tag_pre dm m2 (S r1)) as [b|]; cbn [mbind option_bind];
    [|discriminate].
  destruct (b =? 1)%Z.
  - intros [= <- <- <-]. split; [lia|exact Hm2].
  - intros H. apply IH in H as [L H]. split; [lia|].
    intros j Hj. rewrite H by lia. apply Hm2. exact Hj.
Qed.

Lemma handle_tags_below (dm : data_model) (m m' : memory) (r w : nat)
    (st st' : ngx_http_no_newlines_state_e) :
  ngx_http_no_newlines_handle_tags dm m r w st = Some (m', st') ->
  length m' = length m /\ forall j, j < w -> m' !! j = m !! j.
Proof.
  unfold ngx_http_no_newlines_handle_tags.
  destruct (load m r) as [c|]; cbn [mbind option_bind]; [|discriminate].
  destruct (store m w c) as [m1|] eqn:E; cbn [mbind option_bind];
    [|discriminate].
  apply store_below in E as [L1 E].
  destruct (is_tag_pre dm m1 (S r)) as [b|]; cbn [mbind option_bind];
    [|discriminate].
  destruct (b =? 0)%Z.
  - intros [= <- _]. auto.
  - destruct (copy_bytes 3 m1 (S r) (S w)) as [m2|] eqn:E2;
      cbn [mbind option_bind]; [|discriminate].
    apply copy_bytes_below in E2 as [L2 E2].
    intros [= <- _]. split; [congruence|].
    intros j Hj. rewrite E2 by lia. apply E. exact Hj.
Qed.

Lemma ignore_preformatted_text_below (dm : data_model) (m m' : memory)
    (r w : nat) (st st' : ngx_http_no_newlines_state_e) :
  ngx_http_no_newlines_ignore_preformatted_text dm m r w st = Some (m', st') ->
  length m' = length m /\ forall j, j < w -> m' !! j = m !! j.
Proof.
  unfold ngx_http_no_newlines_ignore_preformatted_text.
  destruct (scan_to_close dm (S (length m)) m r w) as [[[m1 r1] w1]|] eqn:E1;
    cbn [mbind option_bind]; [|discriminate].
  apply scan_to_close_inv in E1 as L1. destruct L1 as [L1 _].
  apply scan_to_close_below in E1 as [W1 E1].
  destruct (copy_bytes 3 m1 r1 w1) as [m2|] eqn:E2; cbn [mbind option_bind];
    [|discriminate].
  apply copy_bytes_below in E2 as [L2 E2].
  intros [= <- _]. split; [congruence|].
  intros j Hj. rewrite E2 by lia. apply E1. exact Hj.
Qed.

Lemma strip_step_below (dm : data_model) (s s' : scan) :
  strip_step dm s = Some s' ->
  length (scan_mem s') = length (scan_mem s) /\
  forall j, j < scan_writer s -> scan_mem s' !! j = scan_mem s !! j.
Proof.
  destruct s as [m st r w]. unfold strip_step. scan_simpl.
  assert (Hwt : forall m1 st1,
            length m1 = length m ->
            (forall j, j < w -> m1 !! j = m !! j) ->
            write_through m1 st1 r w = Some s' ->
            length (scan_mem s') = length m /\
            forall j, j < w -> scan_mem s' !! j = m !! j).
  { intros m1 st1 L1 H1 H. apply write_through_inv in H as (c & _ & _ & ->).
    scan_simpl. rewrite length_insert. split; [exact L1|].
    intros j Hj. rewrite list_lookup_insert_ne by lia. apply H1. exact Hj. }
  destruct st.
  - destruct (load m r) as [c|]; cbn [mbind option_bind]; [|discriminate].
    destruct ((c =? CR) || (c =? LF))%Z.
    { intros [= <-]. scan_simpl. auto. }
    destruct (c =? LT)%Z; [|apply Hwt; auto].
    destruct (ngx_http_no_newlines_handle_tags dm m r w state_text)
      as [[m1 st1]|] eqn:E; cbn [mbind option_bind]; [|discriminate].
    apply handle_tags_below in E as [L E]. apply Hwt; assumption.
  - apply Hwt; auto.
  - destruct (ngx_http_no_newlines_ignore_preformatted_text dm m r w
                state_tag_pre) as [[m1 st1]|] eqn:E;
      cbn [mbind option_bind]; [|discriminate].
    apply ignore_preformatted_text_below in E as [L E]. apply Hwt; assumption.
Qed.

Lemma strip_iter_below (dm : data_model) (k : nat) :
  forall s s' : scan,
    strip_iter dm k s = Some s' ->
    length (scan_mem s') = length (scan_mem s) /\
    forall j, j < scan_writer s -> scan_mem s' !! j = scan_mem s !! j.
Proof.
  induction k as [|k IH]; intros s s'; simpl.
  - intros [= <-]. auto.
  - destruct (strip_step dm s) as [s1|] eqn:E; simpl; [|discriminate].
    intros H. apply IH in H as [L H].
    apply strip_step_cursors in E as C. apply strip_step_below in E as [L1 E].
    split; [congruence|]. intros j Hj. rewrite H by lia. apply E. exact Hj.
Qed.

(** X9: whatever the state and the bytes, a scan writes at its writer and
    behind it only: the bytes in front of the buffer are as before, and so is
    the length of the memory.  The same holds turn by turn for the bytes in
    front of the writer ([strip_iter_below]): what is written stays. *)
Theorem scan_never_writes_before_buffer (dm : data_model) (m m' : list Z)
    (buffer buffer' : ngx_buf_t) (st st' : ngx_http_no_newlines_state_e) :
  ngx_http_no_newlines_strip_buffer dm m buffer st
    = Some (m', buffer', st') ->
  length m' = length m /\
  forall j, j < pos buffer -> m' !! j = m !! j.
Proof.
  unfold ngx_http_no_newlines_strip_buffer.
  destruct (strip_iter _ _ _) as [s|] eqn:E; simpl; [|discriminate].
  intros [= <- _ _]. apply strip_iter_below in E. exact E.
Qed.

Lemma scan_never_writes_before_buffer_witness :
  length (bytes "<p" ++ [LF] ++ bytes "p") = length (bytes "<" ++ crlf ++ bytes "p") /\
  forall j, j < pos (Buf 1 4) ->
    (bytes "<p" ++ [LF] ++ bytes "p") !! j
    = (bytes "<" ++ crlf ++ bytes "p") !! j.
Proof.
  apply (scan_never_writes_before_buffer LP64
           (bytes "<" ++ crlf ++ bytes "p") (bytes "<p" ++ [LF] ++ bytes "p")
           (Buf 1 4) (Buf 1 2) state_text state_text).
  reflexivity.
Defined.

(** ** Buffers and chains in the text state *)

Lemma clean_scan (dm : data_model) (m : memory) (k : nat) :
  forall r : nat,
    r + k <= length m ->
    (forall i c, r <= i < r + k -> m !! i = Some c ->
       c <> CR /\ c <> LF /\ (c = LT -> is_tag_pre dm m (S i) = Some 0%Z)) ->
    strip_iter dm k (Scan m state_text r r)
    = Some (Scan m state_text (r + k) (r + k)).
Proof.
  induction k as [|k IH]; intros r Hlen Hclean; simpl.
  - rewrite Nat.add_0_r. reflexivity.
  - unfold load. destruct (lookup_lt_is_Some_2 m r) as [c Hc]; [lia|].
    rewrite Hc. cbn [mbind option_bind].
    destruct (Hclean r c ltac:(lia) Hc) as (H1 & H2 & H3).
    apply Z.eqb_neq in H1, H2. rewrite H1, H2. cbn [orb].
    assert (Hwt : write_through m state_text r r
                  = Some (Scan m state_text (S r) (S r))).
    { unfold write_through, load. rewrite Hc. cbn [mbind option_bind].
      rewrite (store_same m r c Hc). reflexivity. }
    assert (Hstep : (if (c =? LT)%Z
                     then ngx_http_no_newlines_handle_tags dm m r r state_text
                          ≫= (fun '(m1, st1) => write_through m1 st1 r r)
                     else write_through m state_text r r)
                    = Some (Scan m state_text (S r) (S r))).
    { destruct (Z.eqb_spec c LT) as [Hlt|_]; [|exact Hwt].
      unfold ngx_http_no_newlines_handle_tags, load.
      rewrite Hc. cbn [mbind option_bind].
      rewrite (store_same m r c Hc). cbn [mbind option_bind].
      rewrite (H3 Hlt). cbn [mbind option_bind Z.eqb]. exact Hwt. }
    rewrite Hstep. cbn [mbind option_bind].
    rewrite IH; [|lia|].
    + replace (r + S k) with (S r + k) by lia. reflexivity.
    + intros i c' Hi. apply Hclean. lia.
Qed.

Lemma clean_buffer_scan (dm : data_model) (m : memory) (b : ngx_buf_t) :
  clean_buffer (is_tag_pre dm) m b ->
  ngx_http_no_newlines_strip_buffer dm m b state_text
  = Some (m, b, state_text).
Proof.
  intros [Hr Hc]. destruct b as [p l]. cbn [pos last] in *.
  unfold ngx_http_no_newlines_strip_buffer. cbn [pos last].
  rewrite clean_scan; [|lia|].
  - cbn [mbind option_bind scan_mem scan_writer scan_state].
    replace (p + (l - p)) with l by lia. reflexivity.
  - intros i c Hi. apply Hc. lia.
Qed.

(** X10: a buffer without CR, LF and recognised tag is left as it is by a
    scan from the text state: the same bytes in the whole memory, the same
    end, the same state. *)
Theorem clean_buffer_unchanged (dm : data_model) (m : list Z)
    (buffer : ngx_buf_t) :
  pos buffer <= last buffer <= length m ->
  (forall i c, pos buffer <= i < last buffer -> m !! i = Some c ->
     c <> CR /\ c <> LF /\ (c = LT -> is_tag_pre dm m (S i) = Some 0%Z)) ->
  ngx_http_no_newlines_strip_buffer dm m buffer state_text
  = Some (m, buffer, state_text).
Proof. intros Hr Hc. apply clean_buffer_scan. split; assumption. Qed.

Lemma clean_buffer_unchanged_witness :
  ngx_http_no_newlines_strip_buffer LP64 (bytes "<p>a</p>") (Buf 0 8)
    state_text
  = Some (bytes "<p>a</p>", Buf 0 8, state_text).
Proof.
  apply clean_buffer_unchanged; [simpl; lia|].
  intros i c Hi Hc. cbn [pos last] in Hi.
  do 8 (destruct i as [|i];
        [injection Hc as <-;
         repeat split; (discriminate || (intros _; reflexivity))|]).
  lia.
Defined.

Lemma remove_newlines_length (l : list u_char) :
  length (remove_newlines l) + count_newlines l = length l.
Proof.
  induction l as [|c l IH]; simpl; [reflexivity|].
  destruct ((c =? CR) || (c =? LF))%Z; simpl; lia.
Qed.

Lemma buf_bytes_length (m : memory) (p l : nat) :
  l <= length m -> length (buf_bytes m p l) = l - p.
Proof.
  intros H. unfold buf_bytes. rewrite length_take, length_drop. lia.
Qed.

(** X11: a scan that meets no recognised tag moves the end of the buffer
    back by the number of CR and LF bytes the buffer held, and changes no
    byte at or behind the new end: what it has read over stays in the
    memory. *)
Theorem text_scan_shrinks_by_newlines (dm : data_model) (m : list Z)
    (buffer : ngx_buf_t) :
  pos buffer <= last buffer <= length m ->
  (forall i, pos buffer <= i < last buffer -> m !! i = Some LT ->
             is_tag_pre dm m (S i) = Some 0%Z) ->
  exists (m' : list Z) (w : nat),
    ngx_http_no_newlines_strip_buffer dm m buffer state_text
      = Some (m', Buf (pos buffer) w, state_text) /\
    w + count_newlines (buf_bytes m (pos buffer) (last buffer))
      = last buffer /\
    forall i, w <= i -> m' !! i = m !! i.
Proof.
  intros Hrange Hnotag.
  destruct (text_run dm m (pos buffer) (last buffer) Hrange Hnotag
              (last buffer - pos buffer) 0
              (Scan m state_text (pos buffer) (pos buffer)))
    as (s & Hs & Hinv); [lia|apply text_inv_start|].
  destruct s as [m' st r w].
  destruct Hinv as (Hst & _ & Hw & Hlen & Hag & Hout). scan_simpl. subst st.
  exists m', w. unfold ngx_http_no_newlines_strip_buffer.
  rewrite Hs. simpl. split; [reflexivity|]. split; [|exact Hag].
  apply (f_equal length) in Hout.
  replace (pos buffer + (0 + (last buffer - pos buffer)))
    with (last buffer) in * by lia.
  rewrite buf_bytes_length in Hout by lia.
  pose proof (remove_newlines_length
                (buf_bytes m (pos buffer) (last buffer))) as Hcount.
  rewrite buf_bytes_length in Hcount by lia. lia.
Qed.

Lemma text_scan_shrinks_by_newlines_witness :
  exists (m' : list Z) (w : nat),
    ngx_http_no_newlines_strip_buffer LP64 text_with_newline (Buf 0 4)
      state_text = Some (m', Buf 0 w, state_text) /\
    w + 2 = 4 /\
    forall i, w <= i -> m' !! i = text_with_newline !! i.
Proof.
  apply (text_scan_shrinks_by_newlines LP64 text_with_newline (Buf 0 4));
    [simpl; lia|].
  intros i Hi Hc. do 4 (destruct i as [|i]; [discriminate Hc|]).
  simpl in Hi. lia.
Defined.

(** The scan of two chains on end is the scan of the first followed by the
    scan of the second. *)
Lemma strip_chain_app (dm : data_model) (c1 c2 : ngx_chain_t) :
  forall (m : list Z) (st : ngx_http_no_newlines_state_e),
    strip_chain dm m st (c1 ++ c2)
    = ('(m1, c1', st1) ← strip_chain dm m st c1;
       '(m2, c2', st2) ← strip_chain dm m1 st1 c2;
       Some (m2, c1' ++ c2', st2)).
Proof.
  induction c1 as [|b c1 IH]; intros m st.
  - simpl. destruct (strip_chain dm m st c2) as [[[m2 c2'] st2]|];
      reflexivity.
  - cbn [app strip_chain].
    destruct (ngx_http_no_newlines_strip_buffer dm m b st)
      as [[[m1 b'] st1]|]; cbn [mbind option_bind]; [|reflexivity].
    rewrite IH.
    destruct (strip_chain dm m1 st1 c1) as [[[m2 c1'] st2]|];
      cbn [mbind option_bind]; [|reflexivity].
    destruct (strip_chain dm m2 st2 c2) as [[[m3 c2'] st3]|];
      reflexivity.
Qed.

(** X13: the scan of a chain keeps the links of the chain: as many buffers,
    each with its start where it was and with at most the length it had;
    and the memory keeps its length. *)
Theorem strip_chain_shape (dm : data_model) (chain : ngx_chain_t) :
  forall (m m' : list Z) (chain' : ngx_chain_t)
         (st st' : ngx_http_no_newlines_state_e),
    strip_chain dm m st chain = Some (m', chain', st') ->
    length m' = length m /\
    Forall2 (fun b b' => pos b' = pos b /\
                         last b' - pos b' <= last b - pos b) chain chain'.
Proof.
  induction chain as [|b chain IH]; intros m m' chain' st st'; simpl.
  - intros [= <- <- <-]. split; [reflexivity|constructor].
  - destruct (ngx_http_no_newlines_strip_buffer dm m b st)
      as [[[m1 b'] st1]|] eqn:E; cbn [mbind option_bind]; [|discriminate].
    destruct (strip_chain dm m1 st1 chain) as [[[m2 c2] st2]|] eqn:E2;
      cbn [mbind option_bind]; [|discriminate].
    intros [= <- <- <-]. apply IH in E2 as [L2 F2].
    unfold ngx_http_no_newlines_strip_buffer in E.
    destruct (strip_iter _ _ _) as [s|] eqn:Es; simpl in E; [|discriminate].
    injection E as <- <- <-.
    apply strip_iter_below in Es as Hb. apply strip_iter_cursors in Es.
    scan_simpl. split; [destruct Hb; congruence|].
    constructor; [|exact F2]. cbn [pos last]. lia.
Qed.

Lemma strip_chain_shape_witness :
  length (bytes "a" ++ [CR] ++ bytes "bb") = length text_with_newline /\
  Forall2 (fun b b' => pos b' = pos b /\
                       last b' - pos b' <= last b - pos b)
          [Buf 0 2; Buf 2 4] [Buf 0 1; Buf 2 3].
Proof.
  apply (strip_chain_shape LP64 [Buf 0 2; Buf 2 4] text_with_newline
           (bytes "a" ++ [CR] ++ bytes "bb") [Buf 0 1; Buf 2 3]
           state_text state_text).
  reflexivity.
Defined.

Lemma clean_chain_scan (dm : data_model) (m : memory) (chain : ngx_chain_t) :
  Forall (clean_buffer (is_tag_pre dm) m) chain ->
  strip_chain dm m state_text chain = Some (m, chain, state_text).
Proof.
  induction 1 as [|b chain Hb _ IH]; simpl; [reflexivity|].
  rewrite (clean_buffer_scan dm m b Hb). cbn [mbind option_bind].
  rewrite IH. reflexivity.
Qed.

(** X14: for a response with a context, a chain whose buffers hold no CR,
    no LF and no recognised tag goes to the next filter as it came, bytes
    and ends of buffers; the context is handed on in [state_text]. *)
Theorem body_filter_clean_chain (dm : data_model)
    (next : ngx_http_request_t -> list Z -> ngx_chain_t -> Z)
    (r : ngx_http_request_t) (st : ngx_http_no_newlines_state_e)
    (m : list Z) (chain : ngx_chain_t) :
  Forall (clean_buffer (is_tag_pre dm) m) chain ->
  ngx_http_no_newlines_body_filter dm next (ngx_http_set_ctx r (Ctx st))
    m chain
  = Some (next (ngx_http_set_ctx r (Ctx state_text)) m chain).
Proof.
  intros H. unfold ngx_http_no_newlines_body_filter.
  cbn [ngx_http_set_ctx ctx state].
  rewrite (clean_chain_scan dm m chain H). reflexivity.
Qed.

Lemma body_filter_clean_chain_witness :
  ngx_http_no_newlines_body_filter LP64
    (fun r m chain => Z.of_nat (length m + length chain))
    (ngx_http_set_ctx (html_request "text/html") (Ctx state_tag_pre))
    (bytes "<p>a</p>") [Buf 0 3; Buf 3 8]
  = Some 10%Z.
Proof.
  apply (body_filter_clean_chain LP64
           (fun r m chain => Z.of_nat (length m + length chain))
           (html_request "text/html") state_tag_pre
           (bytes "<p>a</p>") [Buf 0 3; Buf 3 8]).
  assert (H : forall i c, i < 8 -> bytes "<p>a</p>" !! i = Some c ->
            c <> CR /\ c <> LF /\
            (c = LT -> is_tag_pre LP64 (bytes "<p>a</p>") (S i) = Some 0%Z)).
  { intros i c Hi Hc.
    do 8 (destruct i as [|i];
          [injection Hc as <-;
           repeat split; (discriminate || (intros _; reflexivity))|]).
    lia. }
  assert (Hb : forall p l, p <= l <= 8 ->
            clean_buffer (is_tag_pre LP64) (bytes "<p>a</p>") (Buf p l)).
  { intros p l Hpl. split; [exact Hpl|].
    cbn [pos last]. intros i c Hi. apply H. lia. }
  constructor; [apply Hb; lia|].
  constructor; [apply Hb; lia|].
  constructor.
Defined.

(** ** The header filter past its first test *)

Lemma agree_nocase_le (n : nat) :
  forall (m : memory) (s1 : nat) (s2 : list u_char) (k : nat),
    k <= n -> agree_nocase m s1 s2 n -> agree_nocase m s1 s2 k.
Proof.
  induction n as [|n IH]; intros m s1 s2 k Hk H.
  - replace k with 0 by lia. exact I.
  - destruct k as [|k]; [exact I|]. cbn [agree_nocase] in *.
    destruct H as (c1 & c2 & H1 & H2 & H3 & [H4|H4]);
      exists c1, c2; repeat split; auto.
    right. apply IH; [lia|exact H4].
Qed.

Lemma header_filter_past_gate (dm : data_model)
    (next : ngx_http_request_t -> Z) (r : ngx_http_request_t) :
  past_gate r ->
  ngx_http_no_newlines_header_filter dm next r
  = (rc ← ngx_strncasecmp (data (content_type (headers_out r))) 0
                          (c_literal "text/html") (sizeof_pointer dm);
     if negb (rc =? 0)%Z then Some (next r)
     else match ngx_pcalloc r with
          | None => Some NGX_ERROR
          | Some c =>
              Some (next (set_main_filter_need_in_memory
                            (ngx_http_clear_accept_ranges
                               (ngx_http_clear_content_length
                                  (ngx_http_set_ctx r c)))))
          end).
Proof.
  intros (Hst & Hho & Hlen & Henc).
  unfold ngx_http_no_newlines_header_filter.
  match goal with |- (if ?c then _ else _) = _ => assert (Hc : c = false) end;
    [|rewrite Hc; reflexivity].
  apply Nat.eqb_neq in Hlen. rewrite Hho, Hlen.
  replace (negb (status (headers_out r) =? NGX_HTTP_OK)%Z &&
           negb (status (headers_out r) =? NGX_HTTP_FORBIDDEN)%Z &&
           negb (status (headers_out r) =? NGX_HTTP_NOT_FOUND)%Z)
    with false by (destruct Hst as [->|[->| ->]]; reflexivity).
  destruct (content_encoding (headers_out r)) as [e|]; [|reflexivity].
  rewrite (Henc e eq_refl). reflexivity.
Qed.

(** X16: a response past the first test whose content type begins with the
    nine bytes of text/html, in either case, gets a context in
    [state_text] when the pool has room: its content length and accept
    ranges are cleared, ranges are forbidden, the body is asked for in
    memory, and the rest of the request goes on unchanged. *)
Theorem header_filter_takes_text_html (dm : data_model)
    (next : ngx_http_request_t -> Z) (r : ngx_http_request_t) :
  past_gate r ->
  agree_nocase (data (content_type (headers_out r))) 0
               (c_literal "text/html") 9 ->
  pool_has_room r = true ->
  ngx_http_no_newlines_header_filter dm next r
  = Some (next (Request
                  (HeadersOut (status (headers_out r))
                              (content_type (headers_out r))
                              (content_encoding (headers_out r))
                              None (-1)%Z None)
                  (header_only r) false true true
                  (Some (Ctx state_text)))).
Proof.
  intros Hgate Hct Hpool. rewrite header_filter_past_gate by exact Hgate.
  apply (agree_nocase_le 9 _ _ _ (sizeof_pointer dm)) in Hct;
    [|destruct dm; simpl; lia].
  apply ngx_strncasecmp_0 in Hct. rewrite Hct. cbn [mbind option_bind].
  unfold ngx_pcalloc. rewrite Hpool.
  unfold set_main_filter_need_in_memory, ngx_http_clear_accept_ranges,
    ngx_http_clear_content_length, ngx_http_set_ctx.
  cbn. rewrite Hpool. reflexivity.
Qed.

Lemma header_filter_takes_text_html_witness :
  ngx_http_no_newlines_header_filter ILP32
    (fun r => match ctx r with Some _ => content_length_n (headers_out r)
                             | None => 7%Z end)
    (html_request "Text/HTML; charset=utf-8")
  = Some (-1)%Z.
Proof.
  apply (header_filter_takes_text_html ILP32
           (fun r => match ctx r with
                     | Some _ => content_length_n (headers_out r)
                     | None => 7%Z end)
           (html_request "Text/HTML; charset=utf-8")).
  - repeat split; [left; reflexivity|discriminate|discriminate].
  - cbn [agree_nocase].
    repeat (eexists; eexists;
            split; [reflexivity|split; [reflexivity|split; [reflexivity|]]];
            try right);
      exact I.
  - reflexivity.
Defined.

(** X17: when the pool has no room for the context of such a response the
    header filter answers NGX_ERROR and the next header filter is not
    called. *)
Theorem header_filter_allocation_failure (dm : data_model)
    (next : ngx_http_request_t -> Z) (r : ngx_http_request_t) :
  past_gate r ->
  agree_nocase (data (content_type (headers_out r))) 0
               (c_literal "text/html") (sizeof_pointer dm) ->
  pool_has_room r = false ->
  ngx_http_no_newlines_header_filter dm next r = Some NGX_ERROR.
Proof.
  intros Hgate Hct Hpool. rewrite header_filter_past_gate by exact Hgate.
  apply ngx_strncasecmp_0 in Hct. rewrite Hct. cbn [mbind option_bind].
  unfold ngx_pcalloc. rewrite Hpool. reflexivity.
Qed.

Lemma header_filter_allocation_failure_witness :
  ngx_http_no_newlines_header_filter LP64 (fun _ => 0%Z)
    (Request (html_headers "text/html") false true false false None)
  = Some NGX_ERROR.
Proof.
  apply header_filter_allocation_failure.
  - repeat split; [left; reflexivity|discriminate|discriminate].
  - cbn [agree_nocase sizeof_pointer].
    repeat (eexists; eexists;
            split; [reflexivity|split; [reflexivity|split; [reflexivity|]]];
            try right);
      exact I.
  - reflexivity.
Defined.

(** X18: a response past the first test whose content type can be read over
    the length of a pointer and differs there from text/html goes to the
    next header filter as it is, without a context. *)
Theorem header_filter_other_type (dm : data_model)
    (next : ngx_http_request_t -> Z) (r : ngx_http_request_t) :
  past_gate r ->
  sizeof_pointer dm <= length (data (content_type (headers_out r))) ->
  ~ agree_nocase (data (content_type (headers_out r))) 0
                 (c_literal "text/html") (sizeof_pointer dm) ->
  ngx_http_no_newlines_header_filter dm next r = Some (next r).
Proof.
  intros Hgate Hlen Hct. rewrite header_filter_past_gate by exact Hgate.
  destruct (ngx_strncasecmp_readable (sizeof_pointer dm)
              (data (content_type (headers_out r))) 0
              (c_literal "text/html")) as [rc Hrc];
    [lia|destruct dm; simpl; lia|].
  rewrite Hrc. cbn [mbind option_bind].
  destruct (Z.eqb_spec rc 0) as [->|Hne]; [|reflexivity].
  exfalso. apply Hct. apply ngx_strncasecmp_0. exact Hrc.
Qed.

Lemma header_filter_other_type_witness :
  ngx_http_no_newlines_header_filter LP64
    (fun r => match ctx r with Some _ => 1%Z | None => 0%Z end)
    (html_request "text/css")
  = Some 0%Z.
Proof.
  apply (header_filter_other_type LP64
           (fun r => match ctx r with Some _ => 1%Z | None => 0%Z end)
           (html_request "text/css")).
  - repeat split; [left; reflexivity|discriminate|discriminate].
  - simpl. lia.
  - intros H. apply ngx_strncasecmp_0 in H. discriminate H.
Defined.

Lemma header_filter_passes_through_witness :
  ngx_http_no_newlines_header_filter LP64
    (fun r => match ctx r with Some _ => 1%Z | None => 0%Z end)
    (Request (HeadersOut 304%Z (Str 9 (c_literal "text/html"))
                         None None 0%Z None)
             false true false true None)
  = Some 0%Z.
Proof.
  apply (header_filter_passes_through LP64
           (fun r => match ctx r with Some _ => 1%Z | None => 0%Z end)).
  left. repeat split; discriminate.
Defined.

(** ** A recognised tag *)

Lemma ignore_preformatted_text_in_place (dm : data_model) (m : memory)
    (r j : nat) (st : ngx_http_no_newlines_state_e) :
  r <= j -> m !! j = Some SLASH -> is_tag_pre dm m (S j) = Some 1%Z ->
  ngx_http_no_newlines_ignore_preformatted_text dm m r r st
  = Some (m, state_text).
Proof.
  intros Hj Hs Ht. unfold ngx_http_no_newlines_ignore_preformatted_text.
  destruct (scan_to_close_in_place dm (S (length m)) m r j)
    as (j' & G1 & G2 & ->); [exact Hj|exact Hs|exact Ht|lia|].
  cbn [mbind option_bind].
  apply is_tag_pre_accepts in G2 as [_ G2]. apply lookup_lt_Some in G2.
  rewrite copy_bytes_in_place by lia. reflexivity.
Qed.

(** X19: where nothing has been removed yet, an opening angle that the
    classifier takes for a tag costs two turns of the scan and changes no
    byte: the dispatcher sets [state_tag_pre], the scanner runs to the next
    closing mark and sets [state_text] again, and the scan goes on in the
    text state from the second byte behind the angle, inside the
    region. *)
Theorem recognised_tag_in_place (dm : data_model) (m : list Z) (r j : nat) :
  m !! r = Some LT ->
  is_tag_pre dm m (S r) = Some 1%Z ->
  S r <= j -> m !! j = Some SLASH -> is_tag_pre dm m (S j) = Some 1%Z ->
  strip_iter dm 1 (Scan m state_text r r)
    = Some (Scan m state_tag_pre (S r) (S r)) /\
  strip_iter dm 2 (Scan m state_text r r)
    = Some (Scan m state_text (S (S r)) (S (S r))).
Proof.
  intros Hc Htag Hj Hs Hclose.
  assert (Hlen : S r + 4 <= length m).
  { apply is_tag_pre_accepts in Htag as [_ H].
    apply lookup_lt_Some in H. lia. }
  assert (H1 : strip_step dm (Scan m state_text r r)
               = Some (Scan m state_tag_pre (S r) (S r))).
  { unfold strip_step, load. rewrite Hc.
    change (ngx_http_no_newlines_handle_tags dm m r r state_text
            ≫= (fun '(m1, st1) => write_through m1 st1 r r)
            = Some (Scan m state_tag_pre (S r) (S r))).
    unfold ngx_http_no_newlines_handle_tags, load. rewrite Hc.
    cbn [mbind option_bind]. rewrite (store_same m r LT Hc).
    cbn [mbind option_bind]. rewrite Htag. cbn [mbind option_bind Z.eqb].
    rewrite copy_bytes_in_place by lia. cbn [mbind option_bind].
    unfold write_through, load. rewrite Hc. cbn [mbind option_bind].
    rewrite (store_same m r LT Hc). reflexivity. }
  assert (H2 : strip_step dm (Scan m state_tag_pre (S r) (S r))
               = Some (Scan m state_text (S (S r)) (S (S r)))).
  { unfold strip_step.
    rewrite (ignore_preformatted_text_in_place dm m (S r) j) by assumption.
    cbn [mbind option_bind]. unfold write_through, load.
    destruct (lookup_lt_is_Some_2 m (S r)) as [c Hc1]; [lia|].
    rewrite Hc1. cbn [mbind option_bind].
    rewrite (store_same m (S r) c Hc1). reflexivity. }
  split.
  - cbn [strip_iter]. rewrite H1. reflexivity.
  - cbn [strip_iter]. rewrite H1. cbn [mbind option_bind]. rewrite H2.
    reflexivity.
Qed.

Lemma recognised_tag_in_place_witness :
  strip_iter LP64 1
    (Scan (bytes "<pre" ++ [NUL] ++ crlf ++ bytes "</pre" ++ [NUL])
          state_text 0 0)
  = Some (Scan (bytes "<pre" ++ [NUL] ++ crlf ++ bytes "</pre" ++ [NUL])
               state_tag_pre 1 1) /\
  strip_iter LP64 2
    (Scan (bytes "<pre" ++ [NUL] ++ crlf ++ bytes "</pre" ++ [NUL])
          state_text 0 0)
  = Some (Scan (bytes "<pre" ++ [NUL] ++ crlf ++ bytes "</pre" ++ [NUL])
               state_text 2 2).
Proof.
  apply (recognised_tag_in_place LP64 _ 0 8); try reflexivity. lia.
Defined.
